(** * Shame-map report workflow: ReportForm, +page and MapDisplay

    A shallow embedding of the three Svelte components that make up the
    report-submission-and-map-refresh workflow:

    - [ReportForm]  : src/lib/components/ReportForm.svelte
    - [Page]        : src/routes/+page.svelte
    - [MapDisplay]  : src/lib/components/MapDisplay.svelte

    Component variables become record fields, the component functions become
    computations in a small state/exception/trace monad, and everything the
    code awaits from outside (geolocation, the Supabase client, Leaflet) is an
    object whose methods answer deterministically and whose calls are recorded
    in the trace. *)

From Stdlib Require Import List NArith Bool String Ascii Floats DecimalString.
Import ListNotations.

Set Warnings "-inexact-float".
Set Implicit Arguments.

(* ------------------------------------------------------------------ *)
(** * JavaScript values *)
(* ------------------------------------------------------------------ *)

Module Js.

(** A JavaScript string is a sequence of UTF-16 code units. *)
Definition code_unit := N.
Definition jsstring := list code_unit.

(** String literals of the source (all of them ASCII). *)
Definition lit (s : string) : jsstring :=
  map N_of_ascii (list_ascii_of_string s).

(** The double-quote character, used inside the HTML templates. *)
Definition dq : jsstring := [34%N].

(** Decimal rendering of a non-negative integer, as [`${n}`] does. *)
Definition showN (n : N) : jsstring :=
  lit (NilEmpty.string_of_uint (N.to_uint n)).

(** Truthiness of a string: only the empty string is falsy. *)
Definition truthy (s : jsstring) : bool :=
  match s with
  | [] => false
  | _ :: _ => true
  end.

(** [s.startsWith(p)] *)
Fixpoint startsWith (p s : jsstring) : bool :=
  match p, s with
  | [], _ => true
  | _ :: _, [] => false
  | a :: p', b :: s' => N.eqb a b && startsWith p' s'
  end.

(** The code points that [String.prototype.trim] strips: ECMAScript
    WhiteSpace (TAB, VT, FF, ZWNBSP and the Unicode space separators) and
    LineTerminator (LF, CR, LS, PS).  All of them are single code units. *)
Definition isWhiteSpace (c : code_unit) : bool :=
  (N.eqb c 0x0009 || N.eqb c 0x000B || N.eqb c 0x000C || N.eqb c 0xFEFF
   || N.eqb c 0x0020 || N.eqb c 0x00A0 || N.eqb c 0x1680
   || (N.leb 0x2000 c && N.leb c 0x200A)
   || N.eqb c 0x202F || N.eqb c 0x205F || N.eqb c 0x3000
   || N.eqb c 0x000A || N.eqb c 0x000D || N.eqb c 0x2028 || N.eqb c 0x2029)%bool.

Fixpoint trimStart (s : jsstring) : jsstring :=
  match s with
  | [] => []
  | c :: s' => if isWhiteSpace c then trimStart s' else s
  end.

Definition trimEnd (s : jsstring) : jsstring := rev (trimStart (rev s)).

(** [s.trim()] *)
Definition trim (s : jsstring) : jsstring := trimEnd (trimStart s).

(** [s.replace(/c/g, d)] for a single-character pattern. *)
Definition replaceAll (c d : code_unit) (s : jsstring) : jsstring :=
  map (fun x => if N.eqb x c then d else x) s.

(** [s.split(sep).pop()] for a single-character separator: the segment after
    the last separator, or the whole string when there is none. *)
Fixpoint lastSegment (sep : code_unit) (acc s : jsstring) : jsstring :=
  match s with
  | [] => rev acc
  | c :: s' => if N.eqb c sep then lastSegment sep [] s'
               else lastSegment sep (c :: acc) s'
  end.

(** A JavaScript number is an IEEE-754 binary64 value. *)
Definition number := float.

(** Global [isNaN] on a number. *)
Definition isNaN (x : number) : bool := PrimFloat.is_nan x.

(** A thrown value: an [Error] instance carrying its message, or some other
    object whose [message] property may be missing. *)
Inductive thrown :=
| ErrorObject (message : jsstring)
| OtherObject (message : option jsstring).

(** [err.message] inside a template literal. *)
Definition message_of (e : thrown) : jsstring :=
  match e with
  | ErrorObject m => m
  | OtherObject (Some m) => m
  | OtherObject None => lit "undefined"
  end.

(** [console.log], [console.warn], [console.error].  Only the first argument
    (the text) is recorded. *)
Inductive level := lvl_log | lvl_warn | lvl_error.

Inductive event (Call : Type) :=
| Console (lvl : level) (text : jsstring)
| Invoke (c : Call).

Arguments Console {Call} lvl text.
Arguments Invoke {Call} c.

End Js.

Import Js.

(* ------------------------------------------------------------------ *)
(** * Computations: state, thrown values and a trace of effects *)
(* ------------------------------------------------------------------ *)

Module Run.

Inductive completion (A : Type) :=
| Normal (a : A)
| Abrupt (e : thrown).

Arguments Abrupt {A} e.

Section Monad.
Context {S Call : Type}.

(** A computation reads and writes the component state [S]; assignments
    made before a [throw] are kept. *)
Definition M (A : Type) : Type := S -> completion A * S * list (event Call).

Definition ret {A} (a : A) : M A := fun s => (Normal a, s, []).

Definition bind {A B} (m : M A) (k : A -> M B) : M B :=
  fun s =>
    match m s with
    | (Normal a, s1, t1) =>
        match k a s1 with
        | (r, s2, t2) => (r, s2, t1 ++ t2)
        end
    | (Abrupt e, s1, t1) => (Abrupt e, s1, t1)
    end.

Definition throw {A} (e : thrown) : M A := fun s => (Abrupt e, s, []).

Definition gets {A} (f : S -> A) : M A := fun s => (Normal (f s), s, []).

Definition modify (f : S -> S) : M unit := fun s => (Normal tt, f s, []).

Definition emit (c : Call) : M unit := fun s => (Normal tt, s, [Invoke c]).

Definition console (lvl : level) (text : jsstring) : M unit :=
  fun s => (Normal tt, s, [Console lvl text]).

(** [try { m } catch (e) { h e }] *)
Definition tryCatch {A} (m : M A) (h : thrown -> M A) : M A :=
  fun s =>
    match m s with
    | (Normal a, s1, t1) => (Normal a, s1, t1)
    | (Abrupt e, s1, t1) =>
        match h e s1 with
        | (r, s2, t2) => (r, s2, t1 ++ t2)
        end
    end.

(** [try { m } finally { f }]: [f] runs on both exits; when [f] itself
    completes normally the completion of [m] is kept. *)
Definition tryFinally {A} (m : M A) (f : M unit) : M A :=
  fun s =>
    match m s with
    | (r, s1, t1) =>
        match f s1 with
        | (Normal _, s2, t2) => (r, s2, t1 ++ t2)
        | (Abrupt e, s2, t2) => (Abrupt e, s2, t1 ++ t2)
        end
    end.

(** [xs.forEach(body)] *)
Fixpoint forEach {A} (body : A -> M unit) (xs : list A) : M unit :=
  match xs with
  | [] => ret tt
  | x :: xs' => bind (body x) (fun _ => forEach body xs')
  end.

End Monad.

Arguments M : clear implicits.

Declare Scope run_scope.
Delimit Scope run_scope with run.
Notation "x <- m ;; k" := (bind m (fun x => k))
  (at level 61, m at next level, right associativity) : run_scope.
Notation "m ;; k" := (bind m (fun _ => k))
  (at level 61, right associativity) : run_scope.

(** Projections of a finished run. *)
Definition result {S Call A} (r : completion A * S * list (event Call)) : completion A :=
  fst (fst r).
Definition state {S Call A} (r : completion A * S * list (event Call)) : S :=
  snd (fst r).
Definition trace {S Call A} (r : completion A * S * list (event Call)) : list (event Call) :=
  snd r.

(** The calls of a trace, console output dropped. *)
Fixpoint calls {Call} (t : list (event Call)) : list Call :=
  match t with
  | [] => []
  | Console _ _ :: t' => calls t'
  | Invoke c :: t' => c :: calls t'
  end.

End Run.

Import Run.
Local Open Scope run_scope.

(* ------------------------------------------------------------------ *)
(** * ReportForm.svelte *)
(* ------------------------------------------------------------------ *)

(** A [File] as far as the components look at it. *)
Record File := { file_name : jsstring; file_type : jsstring }.

(** [export type ReportData] *)
Module ReportData.
Record t := {
  pollutionType : jsstring;
  description : jsstring;
  latitude : number;
  longitude : number;
  imageFile : option File
}.
End ReportData.

(** The browser's Geolocation API. *)
Module Geolocation.
Record PositionOptions := {
  enableHighAccuracy : bool;
  timeout : N;       (* milliseconds *)
  maximumAge : N     (* milliseconds *)
}.

Record GeolocationCoordinates := { latitude : number; longitude : number }.

Record GeolocationPositionError := { code : N }.

Definition PERMISSION_DENIED : N := 1.
Definition POSITION_UNAVAILABLE : N := 2.
Definition TIMEOUT : N := 3.

(** The outcome of one [getCurrentPosition] request: the success callback
    with a position, or the error callback. *)
Inductive outcome :=
| resolve (coords : GeolocationCoordinates)
| reject (err : GeolocationPositionError).

(** [navigator.geolocation] *)
Record t := { getCurrentPosition : PositionOptions -> outcome }.
End Geolocation.

Module ReportForm.

(** The component's [$state] variables.  [imagePreviewUrl] is maintained by
    an [$effect] from [imageFile] alone and is left out. *)
Record Form := {
  pollutionType : jsstring;
  description : jsstring;
  latitude : option number;
  longitude : option number;
  imageFile : option File;
  isSubmitting : bool;
  locationStatus : jsstring;
  formError : option jsstring
}.

(** The values the [$state] declarations start from. *)
Definition initial : Form := {|
  pollutionType := lit "Trash Dump";
  description := [];
  latitude := None;
  longitude := None;
  imageFile := None;
  isSubmitting := false;
  locationStatus := [];
  formError := None
|}.

Definition pollutionTypes : list jsstring :=
  [lit "Trash Dump"; lit "Plastic Burning"; lit "Sewage Leak";
   lit "Air Pollution"; lit "Other"].

Definition set_latitude (v : option number) (f : Form) : Form :=
  {| pollutionType := pollutionType f; description := description f;
     latitude := v; longitude := longitude f; imageFile := imageFile f;
     isSubmitting := isSubmitting f; locationStatus := locationStatus f;
     formError := formError f |}.

Definition set_longitude (v : option number) (f : Form) : Form :=
  {| pollutionType := pollutionType f; description := description f;
     latitude := latitude f; longitude := v; imageFile := imageFile f;
     isSubmitting := isSubmitting f; locationStatus := locationStatus f;
     formError := formError f |}.

Definition set_imageFile (v : option File) (f : Form) : Form :=
  {| pollutionType := pollutionType f; description := description f;
     latitude := latitude f; longitude := longitude f; imageFile := v;
     isSubmitting := isSubmitting f; locationStatus := locationStatus f;
     formError := formError f |}.

Definition set_isSubmitting (v : bool) (f : Form) : Form :=
  {| pollutionType := pollutionType f; description := description f;
     latitude := latitude f; longitude := longitude f; imageFile := imageFile f;
     isSubmitting := v; locationStatus := locationStatus f;
     formError := formError f |}.

Definition set_locationStatus (v : jsstring) (f : Form) : Form :=
  {| pollutionType := pollutionType f; description := description f;
     latitude := latitude f; longitude := longitude f; imageFile := imageFile f;
     isSubmitting := isSubmitting f; locationStatus := v;
     formError := formError f |}.

Definition set_formError (v : option jsstring) (f : Form) : Form :=
  {| pollutionType := pollutionType f; description := description f;
     latitude := latitude f; longitude := longitude f; imageFile := imageFile f;
     isSubmitting := isSubmitting f; locationStatus := locationStatus f;
     formError := v |}.

(** What the form calls outside itself, apart from [onSubmit]. *)
Inductive call :=
| GetCurrentPosition (options : Geolocation.PositionOptions).

Section Component.
(** [let { onSubmit } = $props()]: the callback acts on some world [W]
    outside the form and either completes or throws. *)
Context {W : Type}.
Variable onSubmit : ReportData.t -> W -> completion unit * W.

(** [number.toFixed(digits)] *)
Variable toFixed : number -> N -> jsstring.

(** [browser] from $app/environment and [navigator.geolocation] *)
Variable browser : bool.
Variable navigator_geolocation : option Geolocation.t.

Definition Comp := M (Form * W) call.

Definition read {A} (f : Form -> A) : Comp A := gets (fun s => f (fst s)).
Definition assign (f : Form -> Form) : Comp unit :=
  modify (fun s => (f (fst s), snd s)).

(** [await onSubmit(data)] *)
Definition await_onSubmit (data : ReportData.t) : Comp unit :=
  fun s =>
    match onSubmit data (snd s) with
    | (r, w) => (r, (fst s, w), [])
    end.

(** The message each rejected position request is turned into. *)
Definition locationErrorStatus (err : Geolocation.GeolocationPositionError) : jsstring :=
  let c := Geolocation.code err in
  if N.eqb c Geolocation.PERMISSION_DENIED then
    lit "Permission denied. Please enable location access."
  else if N.eqb c Geolocation.POSITION_UNAVAILABLE then
    lit "Location unavailable."
  else if N.eqb c Geolocation.TIMEOUT then
    lit "Location request timed out."
  else
    lit "Failed to get location.".

Definition positionOptions : Geolocation.PositionOptions :=
  {| Geolocation.enableHighAccuracy := true;
     Geolocation.timeout := 10000;
     Geolocation.maximumAge := 0 |}.

Definition getCurrentLocation : Comp unit :=
  assign (set_locationStatus (lit "Getting location...")) ;;
  assign (set_formError None) ;;
  match (if browser then navigator_geolocation else None) with
  | None =>
      assign (set_locationStatus (lit "Geolocation is not supported by your browser."))
  | Some geolocation =>
      emit (GetCurrentPosition positionOptions) ;;
      match Geolocation.getCurrentPosition geolocation positionOptions with
      | Geolocation.resolve coords =>
          let lat := Geolocation.latitude coords in
          let lon := Geolocation.longitude coords in
          assign (set_latitude (Some lat)) ;;
          assign (set_longitude (Some lon)) ;;
          assign (set_locationStatus
                    (lit "Location: " ++ toFixed lat 5 ++ lit ", " ++ toFixed lon 5))
      | Geolocation.reject err =>
          assign (set_locationStatus (locationErrorStatus err)) ;;
          assign (set_latitude None) ;;
          assign (set_longitude None)
      end
  end.

(** [files] is [input.files?.[0]]. *)
Definition handleFileSelect (file : option File) : Comp unit :=
  match file with
  | Some f =>
      if startsWith (lit "image/") (file_type f) then
        assign (set_imageFile (Some f)) ;;
        assign (set_formError None)
      else
        assign (set_formError (Some (lit "Please select a valid image file."))) ;;
        assign (set_imageFile None)
  | None =>
      assign (set_formError (Some (lit "Please select a valid image file."))) ;;
      assign (set_imageFile None)
  end.

(** The second guard of [handleSubmit], after the two [=== null] tests. *)
Definition badCoordinates (lat lon : number) : bool :=
  (isNaN lat || isNaN lon
   || (lat <? -90)%float || (90 <? lat)%float
   || (lon <? -180)%float || (180 <? lon)%float)%bool.

Definition requiredMissing : jsstring := lit "All fields marked with * are required.".
Definition invalidLocation : jsstring := lit "Please provide a valid location.".

Definition handleSubmit : Comp unit :=
  assign (set_formError None) ;;
  pt <- read pollutionType ;;
  d <- read description ;;
  if (negb (truthy pt) || negb (truthy (trim d)))%bool then
    assign (set_formError (Some requiredMissing))
  else
    lat <- read latitude ;;
    lon <- read longitude ;;
    match lat, lon with
    | Some la, Some lo =>
        if badCoordinates la lo then
          assign (set_formError (Some invalidLocation))
        else
          assign (set_isSubmitting true) ;;
          assign (set_locationStatus []) ;;
          img <- read imageFile ;;
          let reportData :=
            {| ReportData.pollutionType := pt;
               ReportData.description := trim d;
               ReportData.latitude := la;
               ReportData.longitude := lo;
               ReportData.imageFile := img |} in
          tryFinally
            (tryCatch
               (await_onSubmit reportData ;;
                console lvl_log (lit "Report submitted successfully."))
               (fun err =>
                  console lvl_error (lit "Submission failed:") ;;
                  assign (set_formError
                            (Some (lit "Failed to submit: " ++
                                   match err with
                                   | ErrorObject m => m
                                   | OtherObject _ => lit "Unknown error"
                                   end)))))
            (assign (set_isSubmitting false))
    | _, _ => assign (set_formError (Some invalidLocation))
    end.

End Component.

(** ** Vocabulary of the form's properties *)

(** A string with nothing but white space in it, the empty string included. *)
Definition blank (s : jsstring) : bool := forallb isWhiteSpace s.

(** The first guard of [handleSubmit]: a required text field is empty. *)
Definition requiredFieldMissing (f : Form) : bool :=
  (negb (truthy (pollutionType f)) || negb (truthy (trim (description f))))%bool.

(** A coordinate pair of which one is missing or NaN, or whose latitude is
    outside [-90, 90], or whose longitude is outside [-180, 180]. *)
Definition invalidCoordinates (lat lon : option number) : bool :=
  match lat, lon with
  | Some la, Some lo =>
      (isNaN la || isNaN lo
       || ((la <? -90)%float || (90 <? la)%float)
       || ((lo <? -180)%float || (180 <? lo)%float))%bool
  | _, _ => true
  end.

(** The [reportData] object [handleSubmit] hands to [onSubmit]. *)
Definition reportDataOf (f : Form) (la lo : number) : ReportData.t :=
  {| ReportData.pollutionType := pollutionType f;
     ReportData.description := trim (description f);
     ReportData.latitude := la;
     ReportData.longitude := lo;
     ReportData.imageFile := imageFile f |}.

(** The form is back in the state its declarations start from, as far as the
    pending report goes: category, description, coordinates, image file. *)
Definition pendingReportCleared (f : Form) : Prop :=
  pollutionType f = pollutionType initial /\
  description f = description initial /\
  latitude f = latitude initial /\
  longitude f = longitude initial /\
  imageFile f = imageFile initial.

(** The four messages a rejected position request is classified into. *)
Definition locationFailureMessages : list jsstring :=
  [lit "Permission denied. Please enable location access.";
   lit "Location unavailable.";
   lit "Location request timed out.";
   lit "Failed to get location."].

End ReportForm.

(* ------------------------------------------------------------------ *)
(** * The Supabase client, as the two components use it *)
(* ------------------------------------------------------------------ *)

Module Supabase.

(** The [error] member of a storage or table response. *)
Record ResponseError := { message : jsstring }.

(** [reportToInsert] of +page.svelte. *)
Record ReportRow := {
  row_latitude : number;
  row_longitude : number;
  row_pollution_type : jsstring;
  row_description : jsstring;
  row_image_url : option jsstring
}.

(** [type PollutionReport] of MapDisplay.svelte.  The declared types are
    [number] and [string]; the fields the code guards against a missing
    value ([== null], [?.], [||]) are optional here. *)
Record PollutionReport := {
  id : jsstring;
  created_at : jsstring;
  latitude : option number;
  longitude : option number;
  pollution_type : option jsstring;
  description : option jsstring;
  image_url : option jsstring
}.

(** [.from(table).select(columns).order(column, { ascending }).limit(n)] *)
Record SelectQuery := {
  table : jsstring;
  columns : jsstring;
  order_by : jsstring;
  ascending : bool;
  limit : N
}.

(** [{ data, error }] of a select. *)
Record SelectResponse := {
  data : option (list PollutionReport);
  error : option thrown
}.

(** [{ data: urlData }] of [getPublicUrl]. *)
Record UrlData := { publicUrl : jsstring }.

(** The client object: what each request answers. *)
Record Client := {
  storage_upload : jsstring -> jsstring -> File -> option ResponseError;
  storage_getPublicUrl : jsstring -> jsstring -> option UrlData;
  insert : jsstring -> ReportRow -> option ResponseError;
  select : SelectQuery -> SelectResponse
}.

End Supabase.

(* ------------------------------------------------------------------ *)
(** * +page.svelte *)
(* ------------------------------------------------------------------ *)

Module Page.

Record State := {
  submissionMessage : option jsstring;
  isProcessing : bool;
  supabase : option Supabase.Client;
  (** whether [bind:this] has filled [mapDisplayComponent] *)
  mapDisplayComponent : bool
}.

Definition initial : State := {|
  submissionMessage := None;
  isProcessing := false;
  supabase := None;
  mapDisplayComponent := false
|}.

Definition set_submissionMessage (v : option jsstring) (s : State) : State :=
  {| submissionMessage := v; isProcessing := isProcessing s;
     supabase := supabase s; mapDisplayComponent := mapDisplayComponent s |}.

Definition set_isProcessing (v : bool) (s : State) : State :=
  {| submissionMessage := submissionMessage s; isProcessing := v;
     supabase := supabase s; mapDisplayComponent := mapDisplayComponent s |}.

Definition set_supabase (v : option Supabase.Client) (s : State) : State :=
  {| submissionMessage := submissionMessage s; isProcessing := isProcessing s;
     supabase := v; mapDisplayComponent := mapDisplayComponent s |}.

(** The one function handed to [setTimeout]:
    [() => { submissionMessage = null }]. *)
Inductive handler := ClearSubmissionMessage.

Definition fire (h : handler) (s : State) : State :=
  match h with
  | ClearSubmissionMessage => set_submissionMessage None s
  end.

Inductive call :=
| StorageUpload (bucket path : jsstring) (file : File)
| StorageGetPublicUrl (bucket path : jsstring)
| TableInsert (table : jsstring) (row : Supabase.ReportRow)
| RefreshData
| SetTimeout (h : handler) (delay : N).

Definition Comp := M State call.

Definition read {A} (f : State -> A) : Comp A := gets f.
Definition assign (f : State -> State) : Comp unit := modify f.

Section Component.
(** [import.meta.env.VITE_SUPABASE_URL], [..._ANON_KEY], [browser] and
    [createClient]. *)
Variable SUPABASE_URL SUPABASE_ANON_KEY : jsstring.
Variable browser : bool.
Variable createClient : jsstring -> jsstring -> Supabase.Client.

(** [Date.now()] and [Math.random().toString(36).substring(2, 8)] at the
    time of the upload. *)
Variable now : N.
Variable randomSuffix : jsstring.

Definition onMount : Comp unit :=
  if (negb (truthy SUPABASE_URL) || negb (truthy SUPABASE_ANON_KEY))%bool then
    console lvl_error (lit "Supabase URL or Anon Key is missing. Check .env file") ;;
    assign (set_submissionMessage
              (Some (lit "Configuration error: Cannot connect to backend")))
  else if browser then
    assign (set_supabase (Some (createClient SUPABASE_URL SUPABASE_ANON_KEY))) ;;
    console lvl_log (lit "Supabase client initialized")
  else
    ret tt.

Definition bucket : jsstring := lit "pollution-images".

(** [error.message || 'An unknown error occurred during submission'] *)
Definition messageOr (e : thrown) (fallback : jsstring) : jsstring :=
  match e with
  | ErrorObject m | OtherObject (Some m) => if truthy m then m else fallback
  | OtherObject None => fallback
  end.

(** The body of the [if (reportDetails.imageFile)] block.  [ReportData]
    types latitude and longitude as numbers, so the [=== null] test before
    the insert cannot fire and is not represented. *)
Definition uploadAndInsert (client : Supabase.Client)
           (reportDetails : ReportData.t) (file : File) : Comp unit :=
  assign (set_submissionMessage (Some (lit "Uploading image"))) ;;
  let fileExt := lastSegment 46%N [] (file_name file) in
  let filePath :=
    lit "public/" ++ showN now ++ lit "_" ++ randomSuffix ++ lit "." ++ fileExt in
  emit (StorageUpload bucket filePath file) ;;
  match Supabase.storage_upload client bucket filePath file with
  | Some uploadError =>
      console lvl_error (lit "Image Upload Error:") ;;
      throw (ErrorObject (lit "Image upload failed: " ++ Supabase.message uploadError))
  | None =>
      emit (StorageGetPublicUrl bucket filePath) ;;
      uploadedImageUrl <-
        match Supabase.storage_getPublicUrl client bucket filePath with
        | Some urlData =>
            if truthy (Supabase.publicUrl urlData) then
              console lvl_log (lit "Image uploaded:") ;;
              ret (Some (Supabase.publicUrl urlData))
            else
              console lvl_warn
                (lit "Could not get public URL for uploaded image, but upload succeeded") ;;
              ret None
        | None =>
            console lvl_warn
              (lit "Could not get public URL for uploaded image, but upload succeeded") ;;
            ret None
        end ;;
      assign (set_submissionMessage (Some (lit "Saving report details..."))) ;;
      let reportToInsert :=
        {| Supabase.row_latitude := ReportData.latitude reportDetails;
           Supabase.row_longitude := ReportData.longitude reportDetails;
           Supabase.row_pollution_type := ReportData.pollutionType reportDetails;
           Supabase.row_description := ReportData.description reportDetails;
           Supabase.row_image_url := uploadedImageUrl |} in
      emit (TableInsert (lit "pollution_reports") reportToInsert) ;;
      match Supabase.insert client (lit "pollution_reports") reportToInsert with
      | Some insertError =>
          console lvl_error (lit "Database Insert error:") ;;
          throw (ErrorObject (lit "Failed to save report: " ++ Supabase.message insertError))
      | None =>
          assign (set_submissionMessage (Some (lit "Report submitted successfully!"))) ;;
          console lvl_log (lit "Report successfully inserted into database")
      end
  end.

Definition handleReportSubmit (reportDetails : ReportData.t) : Comp unit :=
  assign (set_isProcessing true) ;;
  assign (set_submissionMessage (Some (lit "Processing report..."))) ;;
  console lvl_log (lit "Received report data in parent:") ;;
  sb <- read supabase ;;
  match sb with
  | None =>
      assign (set_submissionMessage
                (Some (lit "Error: Backend connection not ready. Please refresh"))) ;;
      assign (set_isProcessing false) ;;
      console lvl_error (lit "Supabase client not initialized")
  | Some client =>
      tryFinally
        (tryCatch
           (match ReportData.imageFile reportDetails with
            | Some file => uploadAndInsert client reportDetails file
            | None => ret tt
            end ;;
            bound <- read mapDisplayComponent ;;
            if bound then emit RefreshData
            else console lvl_warn
                   (lit "Could not refresh map - component reference not available."))
           (fun err =>
              console lvl_error (lit "Submission failed: ") ;;
              assign (set_submissionMessage
                        (Some (lit "Error: " ++
                               messageOr err
                                 (lit "An unknown error occurred during submission"))))))
        (assign (set_isProcessing false) ;;
         emit (SetTimeout ClearSubmissionMessage 7000))
  end.

End Component.

(** ** Vocabulary of the page's properties *)

Definition isUpload (c : call) : bool :=
  match c with
  | StorageUpload _ _ _ => true
  | _ => false
  end.

Definition isInsert (c : call) : bool :=
  match c with
  | TableInsert _ _ => true
  | _ => false
  end.

(** The timers a sequence of calls has set: handler and delay in ms. *)
Fixpoint timers (cs : list call) : list (handler * N) :=
  match cs with
  | [] => []
  | SetTimeout h delay :: cs' => (h, delay) :: timers cs'
  | _ :: cs' => timers cs'
  end.

End Page.

(* ------------------------------------------------------------------ *)
(** * Leaflet, as MapDisplay uses it *)
(* ------------------------------------------------------------------ *)

Module Leaflet.

Record Marker := {
  latlng : number * number;
  popup : option jsstring
}.

(** [L.marker([lat, lng])].  Leaflet's [LatLng] constructor throws on a
    NaN coordinate. *)
Definition marker (lat lng : number) : completion Marker :=
  if (isNaN lat || isNaN lng)%bool then
    Abrupt (ErrorObject (lit "Invalid LatLng object"))
  else
    Normal {| latlng := (lat, lng); popup := None |}.

(** [marker.bindPopup(content)] *)
Definition bindPopup (content : jsstring) (m : Marker) : Marker :=
  {| latlng := latlng m; popup := Some content |}.

(** A layer group is the sequence of its layers, in insertion order. *)
Definition LayerGroup := list Marker.

(** [L.map(container).setView(center, zoom)] with what is added to it. *)
Record Map := {
  center : number * number;
  zoom : N;
  tileLayers : list jsstring;
  (** whether the component's marker layer group is on the map *)
  hasMarkersLayer : bool
}.

Definition addTileLayer (url : jsstring) (m : Map) : Map :=
  {| center := center m; zoom := zoom m;
     tileLayers := tileLayers m ++ [url];
     hasMarkersLayer := hasMarkersLayer m |}.

Definition addMarkersLayer (m : Map) : Map :=
  {| center := center m; zoom := zoom m;
     tileLayers := tileLayers m;
     hasMarkersLayer := true |}.

End Leaflet.

(* ------------------------------------------------------------------ *)
(** * MapDisplay.svelte *)
(* ------------------------------------------------------------------ *)

Module MapDisplay.

Import Supabase.

Record State := {
  supabase : option Client;
  (** whether [bind:this] has filled [mapContainer] *)
  mapContainer : bool;
  mapInstance : option Leaflet.Map;
  markersLayer : option Leaflet.LayerGroup;
  isLoading : bool;
  mapError : option jsstring;
  (** whether the Leaflet library has been loaded into [L] *)
  L : bool;
  reports : list PollutionReport
}.

(** The component as declared, given its [supabase] prop. *)
Definition initial (client : option Client) : State := {|
  supabase := client;
  mapContainer := false;
  mapInstance := None;
  markersLayer := None;
  isLoading := true;
  mapError := None;
  L := false;
  reports := []
|}.

Definition set_mapContainer (v : bool) (s : State) : State :=
  {| supabase := supabase s; mapContainer := v; mapInstance := mapInstance s;
     markersLayer := markersLayer s; isLoading := isLoading s;
     mapError := mapError s; L := L s; reports := reports s |}.

Definition set_mapInstance (v : option Leaflet.Map) (s : State) : State :=
  {| supabase := supabase s; mapContainer := mapContainer s; mapInstance := v;
     markersLayer := markersLayer s; isLoading := isLoading s;
     mapError := mapError s; L := L s; reports := reports s |}.

Definition set_markersLayer (v : option Leaflet.LayerGroup) (s : State) : State :=
  {| supabase := supabase s; mapContainer := mapContainer s;
     mapInstance := mapInstance s; markersLayer := v; isLoading := isLoading s;
     mapError := mapError s; L := L s; reports := reports s |}.

Definition set_isLoading (v : bool) (s : State) : State :=
  {| supabase := supabase s; mapContainer := mapContainer s;
     mapInstance := mapInstance s; markersLayer := markersLayer s;
     isLoading := v; mapError := mapError s; L := L s; reports := reports s |}.

Definition set_mapError (v : option jsstring) (s : State) : State :=
  {| supabase := supabase s; mapContainer := mapContainer s;
     mapInstance := mapInstance s; markersLayer := markersLayer s;
     isLoading := isLoading s; mapError := v; L := L s; reports := reports s |}.

Definition set_L (v : bool) (s : State) : State :=
  {| supabase := supabase s; mapContainer := mapContainer s;
     mapInstance := mapInstance s; markersLayer := markersLayer s;
     isLoading := isLoading s; mapError := mapError s; L := v;
     reports := reports s |}.

Definition set_reports (v : list PollutionReport) (s : State) : State :=
  {| supabase := supabase s; mapContainer := mapContainer s;
     mapInstance := mapInstance s; markersLayer := markersLayer s;
     isLoading := isLoading s; mapError := mapError s; L := L s;
     reports := v |}.

Inductive call :=
| Select (query : SelectQuery).

Definition Comp := M State call.

Definition read {A} (f : State -> A) : Comp A := gets f.
Definition assign (f : State -> State) : Comp unit := modify f.

Definition initialCoords : number * number := (27.7172, 85.324)%float.
Definition initialZoom : N := 13.

Definition reportsQuery : SelectQuery := {|
  table := lit "pollution_reports";
  columns := lit "id, created_at, latitude, longitude, pollution_type, description, image_url";
  order_by := lit "created_at";
  ascending := false;
  limit := 500
|}.

(** Markup of the popup template; a ['] in the argument stands for the
    double quote of the source. *)
Definition html (s : string) : jsstring :=
  replaceAll 39%N 34%N (lit s).

(** A line break of the template followed by [n] spaces of indentation. *)
Definition nl (n : nat) : jsstring := 10%N :: repeat 32%N n.

Section Component.
(** [browser] from $app/environment. *)
Variable browser : bool.

(** [(await import('leaflet')).default]: the import may reject; when it
    resolves, whether the default export is there. *)
Variable import_leaflet : completion bool.

(** [new Date(s).toLocaleString()] *)
Variable toLocaleString : jsstring -> jsstring.

(** [s || fallback] for a possibly missing string. *)
Definition orElse (s : option jsstring) (fallback : jsstring) : jsstring :=
  match s with
  | Some v => if truthy v then v else fallback
  | None => fallback
  end.

Definition popupContent (report : PollutionReport) : jsstring :=
  nl 20 ++ html "<div class='ksm-popup space-y-1 max-w-xs' style='max-height: 250px; overflow-y: auto;'>" ++
  nl 24 ++ html "<strong class='text-base capitalize'>" ++
           orElse (option_map (replaceAll 95%N 32%N) (pollution_type report)) (lit "Report") ++
           html "</strong>" ++
  nl 24 ++ html "<p class='text-sm text-gray-700'>" ++
           orElse (description report) (lit "No description provided.") ++
           html "</p>" ++
  nl 24 ++ match image_url report with
           | Some url =>
               if truthy url then
                 html "<a href='" ++ url ++
                 html "' target='_blank' rel='noopener noreferrer' class='block mt-2'><img src='" ++ url ++
                 html "' alt='Pollution report image' class='max-h-32 w-auto rounded border border-gray-300' loading='lazy'></a>"
               else []
           | None => []
           end ++
  nl 24 ++ html "<p class='text-xs text-gray-500 pt-1'>Reported: " ++
           toLocaleString (created_at report) ++ html "</p>" ++
  nl 24 ++ html "<!-- Example: Add Share Link (Replace with actual logic) -->" ++
  nl 24 ++ html "<!-- <a href='/report/" ++ id report ++
           html "' target='_blank' class='text-xs text-blue-600 hover:underline'>Details/Share</a> -->" ++
  nl 20 ++ html "</div>" ++
  nl 16.

(** [markersLayer!.addLayer(marker)] *)
Definition addLayer (m : Leaflet.Marker) : Comp unit :=
  ml <- read markersLayer ;;
  match ml with
  | Some layers => assign (set_markersLayer (Some (layers ++ [m])))
  | None => throw (ErrorObject (lit "Cannot read properties of null"))
  end.

(** The callback of [reports.forEach]. *)
Definition renderReport (report : PollutionReport) : Comp unit :=
  match latitude report, longitude report with
  | Some lat, Some lon =>
      if (isNaN lat || isNaN lon)%bool then
        console lvl_warn (lit "[MapDisplay] Skipping report ID " ++ id report ++
                          lit " due to invalid coordinates.")
      else
        tryCatch
          (match Leaflet.marker lat lon with
           | Normal marker =>
               addLayer (Leaflet.bindPopup (popupContent report) marker)
           | Abrupt e => throw e
           end)
          (fun _ =>
             console lvl_error (lit "[MapDisplay] Error creating marker for report ID " ++
                                id report ++ lit ":"))
  | _, _ =>
      console lvl_warn (lit "[MapDisplay] Skipping report ID " ++ id report ++
                        lit " due to invalid coordinates.")
  end.

Definition updateMarkers : Comp unit :=
  mi <- read mapInstance ;;
  ml <- read markersLayer ;;
  l <- read L ;;
  match mi, ml, l with
  | None, _, _ =>
      console lvl_warn (lit "[MapDisplay] updateMarkers called before mapInstance is ready.")
  | Some _, None, _ =>
      console lvl_warn (lit "[MapDisplay] updateMarkers called before markersLayer is ready.")
  | Some _, Some _, false =>
      console lvl_warn (lit "[MapDisplay] updateMarkers called before Leaflet (L) is loaded.")
  | Some map, Some _, true =>
      console lvl_log (lit "[MapDisplay] Updating markers...") ;;
      assign (set_markersLayer (Some [])) ;;
      rs <- read reports ;;
      forEach renderReport rs ;;
      (if Leaflet.hasMarkersLayer map then ret tt
       else
         console lvl_warn (lit "[MapDisplay] markersLayer was not found on map, adding it again.") ;;
         assign (set_mapInstance (Some (Leaflet.addMarkersLayer map)))) ;;
      console lvl_log (lit "[MapDisplay] Finished updating markers. " ++
                       showN (N.of_nat (List.length rs)) ++ lit " reports processed.")
  end.

Definition fetchReports : Comp unit :=
  assign (set_mapError None) ;;
  console lvl_log (lit "[MapDisplay] Fetching pollution reports...") ;;
  sb <- read supabase ;;
  match sb with
  | None =>
      console lvl_error (lit "[MapDisplay] Supabase client not available for fetching reports.") ;;
      assign (set_mapError (Some (lit "Backend connection error."))) ;;
      assign (set_isLoading false)
  | Some client =>
      tryCatch
        (emit (Select reportsQuery) ;;
         let response := select client reportsQuery in
         match error response with
         | Some err => throw err
         | None =>
             assign (set_reports match data response with
                                 | Some rows => rows
                                 | None => []
                                 end) ;;
             rs <- read reports ;;
             console lvl_log (lit "[MapDisplay] Fetched " ++
                              showN (N.of_nat (List.length rs)) ++ lit " reports.") ;;
             updateMarkers
         end)
        (fun err =>
           console lvl_error (lit "[MapDisplay] Error fetching reports:") ;;
           assign (set_mapError (Some (lit "Failed to load reports: " ++ message_of err))) ;;
           assign (set_reports []) ;;
           updateMarkers)
  end.

Definition tileUrl : jsstring := lit "https://{s}.tile.openstreetmap.org/{z}/{x}/{y}.png".

Definition initializeMap : Comp unit :=
  if negb browser then
    console lvl_log (lit "[MapDisplay] Not in browser, skipping map initialization.") ;;
    assign (set_isLoading false)
  else
    mi <- read mapInstance ;;
    mc <- read mapContainer ;;
    match mi, mc with
    | Some _, _ =>
        console lvl_log (lit "[MapDisplay] Map already initialized, skipping re-initialization.") ;;
        assign (set_isLoading false)
    | None, false =>
        console lvl_error (lit "[MapDisplay] Map container div not found on mount!") ;;
        assign (set_mapError (Some (lit "Map container failed to load."))) ;;
        assign (set_isLoading false)
    | None, true =>
        console lvl_log (lit "[MapDisplay] Starting map initialization...") ;;
        tryFinally
          (tryCatch
             (console lvl_log (lit "[MapDisplay] Importing Leaflet...") ;;
              match import_leaflet with
              | Abrupt e => throw e
              | Normal loaded =>
                  assign (set_L loaded) ;;
                  console lvl_log (lit "[MapDisplay] Leaflet imported successfully.") ;;
                  if negb loaded then
                    throw (ErrorObject (lit "Leaflet library (L) failed to load or is null."))
                  else
                    console lvl_log (lit "[MapDisplay] Initializing markersLayer...") ;;
                    assign (set_markersLayer (Some [])) ;;
                    console lvl_log (lit "[MapDisplay] markersLayer initialized.") ;;
                    console lvl_log (lit "[MapDisplay] Initializing map instance...") ;;
                    let map0 := {| Leaflet.center := initialCoords;
                                   Leaflet.zoom := initialZoom;
                                   Leaflet.tileLayers := [];
                                   Leaflet.hasMarkersLayer := false |} in
                    assign (set_mapInstance (Some map0)) ;;
                    console lvl_log (lit "[MapDisplay] Map instance initialized.") ;;
                    assign (set_mapInstance (Some (Leaflet.addTileLayer tileUrl map0))) ;;
                    console lvl_log (lit "[MapDisplay] Tile layer added.") ;;
                    assign (set_mapInstance
                              (Some (Leaflet.addMarkersLayer (Leaflet.addTileLayer tileUrl map0)))) ;;
                    console lvl_log (lit "[MapDisplay] Markers layer added to map.") ;;
                    fetchReports
              end)
             (fun err =>
                console lvl_error (lit "[MapDisplay] Initialization failed:") ;;
                assign (set_mapError (Some (lit "Map initialization failed: " ++ message_of err))) ;;
                assign (set_L false) ;;
                assign (set_mapInstance None) ;;
                assign (set_markersLayer None)))
          (console lvl_log (lit "[MapDisplay] Initialization attempt finished.") ;;
           assign (set_isLoading false))
    end.

(** The cleanup function [onMount] returns. *)
Definition onDestroy : Comp unit :=
  console lvl_log (lit "[MapDisplay] Component unmounting...") ;;
  mi <- read mapInstance ;;
  match mi with
  | Some _ =>
      console lvl_log (lit "[MapDisplay] Removing map instance.") ;;
      assign (set_mapInstance None)
  | None => ret tt
  end ;;
  assign (set_L false) ;;
  assign (set_markersLayer None) ;;
  assign (set_mapContainer false) ;;
  assign (set_reports []).

Definition refreshData : Comp unit :=
  mi <- read mapInstance ;;
  match mi with
  | None =>
      console lvl_warn (lit "[MapDisplay] refreshData called, but map is not ready.")
  | Some _ =>
      console lvl_log (lit "[MapDisplay] Refreshing map data via refreshData()...") ;;
      assign (set_isLoading true) ;;
      assign (set_mapError None) ;;
      tryFinally fetchReports (assign (set_isLoading false))
  end.

End Component.

(** ** Vocabulary of the map's properties *)

(** Both coordinates are there and neither is NaN. *)
Definition validCoordinates (report : PollutionReport) : bool :=
  match latitude report, longitude report with
  | Some lat, Some lon => (negb (isNaN lat) && negb (isNaN lon))%bool
  | _, _ => false
  end.

(** The marker a single report is drawn as, if it is drawn: at the report's
    coordinates, with the report's popup. *)
Definition markerOf (toLocaleString : jsstring -> jsstring)
           (report : PollutionReport) : option Leaflet.Marker :=
  match latitude report, longitude report with
  | Some lat, Some lon =>
      if validCoordinates report then
        Some {| Leaflet.latlng := (lat, lon);
                Leaflet.popup := Some (popupContent toLocaleString report) |}
      else None
  | _, _ => None
  end.

(** The markers of a list of reports, each report on its own. *)
Fixpoint markersOf (toLocaleString : jsstring -> jsstring)
         (rs : list PollutionReport) : Leaflet.LayerGroup :=
  match rs with
  | [] => []
  | report :: rs' =>
      match markerOf toLocaleString report with
      | Some m => m :: markersOf toLocaleString rs'
      | None => markersOf toLocaleString rs'
      end
  end.

(** Map, marker layer and Leaflet are all in place. *)
Definition ready (s : State) : bool :=
  match mapInstance s, markersLayer s with
  | Some _, Some _ => L s
  | _, _ => false
  end.

(** How many markers the layer holds, and where. *)
Definition markerCount (s : State) : nat :=
  match markersLayer s with
  | Some layers => List.length layers
  | None => 0
  end.

Definition markerPositions (s : State) : list (number * number) :=
  match markersLayer s with
  | Some layers => map Leaflet.latlng layers
  | None => []
  end.

(** What a select of the reports leaves in [reports] and [mapError]. *)
Definition fetched (client : Client) : list PollutionReport :=
  match error (select client reportsQuery), data (select client reportsQuery) with
  | None, Some rows => rows
  | _, _ => []
  end.

Definition fetchError (client : Client) : option jsstring :=
  match error (select client reportsQuery) with
  | Some err => Some (lit "Failed to load reports: " ++ message_of err)
  | None => None
  end.

(** The component after [updateMarkers], after [fetchReports] and after
    [refreshData], as functions of the component before. *)
Definition afterUpdate (toLocaleString : jsstring -> jsstring) (s : State) : State :=
  match mapInstance s with
  | Some map =>
      if ready s then
        set_mapInstance
          (Some (if Leaflet.hasMarkersLayer map then map else Leaflet.addMarkersLayer map))
          (set_markersLayer (Some (markersOf toLocaleString (reports s))) s)
      else s
  | None => s
  end.

Definition afterFetch (toLocaleString : jsstring -> jsstring) (s : State) : State :=
  match supabase s with
  | Some client =>
      afterUpdate toLocaleString
        (set_reports (fetched client) (set_mapError (fetchError client) s))
  | None =>
      set_isLoading false (set_mapError (Some (lit "Backend connection error.")) s)
  end.

Definition afterRefresh (toLocaleString : jsstring -> jsstring) (s : State) : State :=
  match mapInstance s with
  | Some _ => set_isLoading false (afterFetch toLocaleString (set_isLoading true s))
  | None => s
  end.

End MapDisplay.

(* ------------------------------------------------------------------ *)
(** * The page's wiring: [<ReportForm onSubmit={handleReportSubmit} />] *)
(* ------------------------------------------------------------------ *)

Module App.

(** Outside the form: the page's variables and everything the page has
    called so far. *)
Definition World : Type := Page.State * list (event Page.call).

Section Wiring.
Variable now : N.
Variable randomSuffix : jsstring.

Definition onSubmit (data : ReportData.t) (w : World) : completion unit * World :=
  match Page.handleReportSubmit now randomSuffix data (fst w) with
  | (r, s, t) => (r, (s, snd w ++ t))
  end.

Definition handleSubmit : ReportForm.Comp (W := World) unit :=
  ReportForm.handleSubmit onSubmit.
End Wiring.

End App.


(* ------------------------------------------------------------------ *)
(** * The rest of the components *)
(* ------------------------------------------------------------------ *)

Module JsText.

(** [s.includes(p)] *)
Fixpoint includes (p s : jsstring) : bool :=
  (startsWith p s
   || match s with
      | [] => false
      | _ :: s' => includes p s'
      end)%bool.

End JsText.

Import JsText.

(** ** ReportForm.svelte: the preview [$effect] *)

Module ImagePreview.

(** An object URL, named by the serial number of its creation. *)
Definition objectUrl := N.

Record State := {
  imagePreviewUrl : option objectUrl;
  (** the cleanup function the last run of the effect returned, as the
      [currentUrl] it closes over; [None] when no run is pending *)
  cleanup : option (option objectUrl);
  (** the browser's object URLs: created and not yet revoked *)
  objectUrls : list objectUrl;
  (** how many object URLs the browser has handed out *)
  created : N
}.

Definition initial : State := {|
  imagePreviewUrl := None;
  cleanup := None;
  objectUrls := [];
  created := 0
|}.

Definition set_imagePreviewUrl (v : option objectUrl) (s : State) : State :=
  {| imagePreviewUrl := v; cleanup := cleanup s;
     objectUrls := objectUrls s; created := created s |}.

Definition set_cleanup (v : option (option objectUrl)) (s : State) : State :=
  {| imagePreviewUrl := imagePreviewUrl s; cleanup := v;
     objectUrls := objectUrls s; created := created s |}.

Inductive call :=
| CreateObjectURL (file : File)
| RevokeObjectURL (url : objectUrl).

Definition Comp := M State call.

(** [URL.createObjectURL(file)]: a URL that was never handed out before. *)
Definition URL_createObjectURL (file : File) : Comp objectUrl :=
  emit (CreateObjectURL file) ;;
  n <- gets created ;;
  modify (fun s => {| imagePreviewUrl := imagePreviewUrl s; cleanup := cleanup s;
                      objectUrls := n :: objectUrls s;
                      created := N.succ (created s) |}) ;;
  ret n.

(** [URL.revokeObjectURL(url)] *)
Definition URL_revokeObjectURL (url : objectUrl) : Comp unit :=
  emit (RevokeObjectURL url) ;;
  modify (fun s => {| imagePreviewUrl := imagePreviewUrl s; cleanup := cleanup s;
                      objectUrls := List.remove N.eq_dec url (objectUrls s);
                      created := created s |}).

(** The function given to [$effect], run with the current [imageFile]; the
    result is the [currentUrl] its cleanup function closes over. *)
Definition effect (imageFile : option File) : Comp (option objectUrl) :=
  match imageFile with
  | Some file =>
      currentUrl <- URL_createObjectURL file ;;
      modify (set_imagePreviewUrl (Some currentUrl)) ;;
      ret (Some currentUrl)
  | None =>
      modify (set_imagePreviewUrl None) ;;
      ret None
  end.

(** The cleanup function: [if (currentUrl) URL.revokeObjectURL(currentUrl)]. *)
Definition runCleanup (currentUrl : option objectUrl) : Comp unit :=
  match currentUrl with
  | Some url => URL_revokeObjectURL url
  | None => ret tt
  end.

(** Svelte runs the effect on mount and again whenever [imageFile] has
    changed, each time after the cleanup function of the run before. *)
Definition run (imageFile : option File) : Comp unit :=
  pending <- gets cleanup ;;
  match pending with
  | Some currentUrl => runCleanup currentUrl
  | None => ret tt
  end ;;
  currentUrl <- effect imageFile ;;
  modify (set_cleanup (Some currentUrl)).

(** On teardown Svelte runs the last cleanup function. *)
Definition teardown : Comp unit :=
  pending <- gets cleanup ;;
  match pending with
  | Some currentUrl => runCleanup currentUrl
  | None => ret tt
  end ;;
  modify (set_cleanup None).

(** The object URL the [<img>] shows, if it shows one. *)
Definition shown (s : State) : list objectUrl :=
  match imagePreviewUrl s with
  | Some url => [url]
  | None => []
  end.

(** How many of the selections were a file. *)
Fixpoint filesIn (selections : list (option File)) : N :=
  match selections with
  | [] => 0
  | Some _ :: rest => N.succ (filesIn rest)
  | None :: rest => filesIn rest
  end.

(** Between runs: the only live object URL is the one shown, and it is the
    one the pending cleanup will revoke. *)
Definition settled (s : State) : Prop :=
  objectUrls s = shown s
  /\ (cleanup s = Some (imagePreviewUrl s)
      \/ (cleanup s = None /\ imagePreviewUrl s = None)).

End ImagePreview.

(** ** ReportForm.svelte: the form as its template drives it *)

Module FormSession.
Import ReportForm.

Definition set_pollutionType (v : jsstring) (f : Form) : Form :=
  {| pollutionType := v; description := description f;
     latitude := latitude f; longitude := longitude f; imageFile := imageFile f;
     isSubmitting := isSubmitting f; locationStatus := locationStatus f;
     formError := formError f |}.

Definition set_description (v : jsstring) (f : Form) : Form :=
  {| pollutionType := pollutionType f; description := v;
     latitude := latitude f; longitude := longitude f; imageFile := imageFile f;
     isSubmitting := isSubmitting f; locationStatus := locationStatus f;
     formError := formError f |}.

(** The form after [handleSubmit] has run the callback: as it was, with
    [locationStatus] emptied, [formError] as given and [isSubmitting] off. *)
Definition submitted (err : option jsstring) (f : Form) : Form :=
  set_isSubmitting false (set_formError err (set_locationStatus [] f)).

(** What the user can do with the form's controls. *)
Inductive action :=
(** [<select bind:value={pollutionType}>] over [pollutionTypes] *)
| ChoosePollutionType (index : nat)
(** [<textarea bind:value={description}>] *)
| TypeDescription (text : jsstring)
(** [<input type="number" bind:value={latitude}>]: a number, or null when
    the field is empty *)
| TypeLatitude (value : option number)
| TypeLongitude (value : option number)
(** the button bound to [getCurrentLocation], with what the browser has to
    offer at that moment *)
| UseCurrentLocation (browser : bool) (geolocation : option Geolocation.t)
(** [on:change={handleFileSelect}] with [input.files?.[0]] *)
| SelectFile (file : option File)
(** [on:submit|preventDefault={handleSubmit}] *)
| Submit.

Section Session.
Context {W : Type}.
Variable onSubmit : ReportData.t -> W -> completion unit * W.
Variable toFixed : number -> N -> jsstring.

Definition perform (a : action) : ReportForm.Comp (W := W) unit :=
  match a with
  | ChoosePollutionType index =>
      match nth_error pollutionTypes index with
      | Some type => assign (set_pollutionType type)
      | None => ret tt
      end
  | TypeDescription text => assign (set_description text)
  | TypeLatitude value => assign (set_latitude value)
  | TypeLongitude value => assign (set_longitude value)
  | UseCurrentLocation browser geolocation =>
      getCurrentLocation toFixed browser geolocation
  | SelectFile file => handleFileSelect file
  | Submit => handleSubmit onSubmit
  end.

Definition session (actions : list action) : ReportForm.Comp (W := W) unit :=
  forEach perform actions.

End Session.

(** A callback that keeps every [ReportData] it is given and completes or
    throws as [outcome] says. *)
Definition recording (outcome : ReportData.t -> completion unit)
           (data : ReportData.t) (seen : list ReportData.t)
  : completion unit * list ReportData.t :=
  (outcome data, seen ++ [data]).

(** The image file, if there is one, is of an image media type. *)
Definition imageTyped (file : option File) : Prop :=
  match file with
  | Some x => startsWith (lit "image/") (file_type x) = true
  | None => True
  end.

(** A report as the form is meant to hand it over. *)
Definition wellFormed (d : ReportData.t) : Prop :=
  In (ReportData.pollutionType d) pollutionTypes
  /\ ReportData.description d <> []
  /\ trim (ReportData.description d) = ReportData.description d
  /\ invalidCoordinates (Some (ReportData.latitude d)) (Some (ReportData.longitude d)) = false
  /\ imageTyped (ReportData.imageFile d).

(** What the form keeps between actions, with the reports seen so far. *)
Definition sound (st : Form * list ReportData.t) : Prop :=
  In (pollutionType (fst st)) pollutionTypes
  /\ imageTyped (imageFile (fst st))
  /\ Forall wellFormed (snd st).

End FormSession.

(** ** +page.svelte: the upload path, the inserted row, the status line *)

Module PageView.
Import Page.

Definition uploadPath (now : N) (randomSuffix : jsstring) (file : File) : jsstring :=
  lit "public/" ++ showN now ++ lit "_" ++ randomSuffix ++ lit "." ++
  lastSegment 46%N [] (file_name file).

(** [uploadedImageUrl] after [getPublicUrl]. *)
Definition uploadedImageUrl (client : Supabase.Client) (path : jsstring) : option jsstring :=
  match Supabase.storage_getPublicUrl client bucket path with
  | Some urlData =>
      if truthy (Supabase.publicUrl urlData) then Some (Supabase.publicUrl urlData)
      else None
  | None => None
  end.

(** [reportToInsert] *)
Definition reportToInsert (reportDetails : ReportData.t) (url : option jsstring)
  : Supabase.ReportRow :=
  {| Supabase.row_latitude := ReportData.latitude reportDetails;
     Supabase.row_longitude := ReportData.longitude reportDetails;
     Supabase.row_pollution_type := ReportData.pollutionType reportDetails;
     Supabase.row_description := ReportData.description reportDetails;
     Supabase.row_image_url := url |}.

Definition isRefresh (c : call) : bool :=
  match c with
  | RefreshData => true
  | _ => false
  end.

(** The place of each call in the pipeline. *)
Definition rank (c : call) : nat :=
  match c with
  | StorageUpload _ _ _ => 0
  | StorageGetPublicUrl _ _ => 1
  | TableInsert _ _ => 2
  | RefreshData => 3
  | SetTimeout _ _ => 4
  end.

Fixpoint increasing (ranks : list nat) : bool :=
  match ranks with
  | a :: (b :: _) as rest => (Nat.ltb a b && increasing rest)%bool
  | _ => true
  end.

(** The status message is one of the pipeline's error reports. *)
Definition isErrorMessage (s : State) : bool :=
  match submissionMessage s with
  | Some m => startsWith (lit "Error: ") m
  | None => false
  end.

(** The [class:] directives of the status line. *)
Record StatusClasses := { green : bool; blue : bool; red : bool }.

(** The status line of the template: absent unless [submissionMessage] is
    truthy, else with the classes its directives switch on. *)
Definition statusLine (s : State) : option StatusClasses :=
  match submissionMessage s with
  | Some m =>
      if truthy m then
        Some {| green := (negb (isProcessing s) && includes (lit "success") m)%bool;
                blue := isProcessing s;
                red := (negb (isProcessing s)
                        && (includes (lit "Error") m
                            || includes (lit "Failed") m
                            || includes (lit "error") m))%bool |}
      else None
  | None => None
  end.

End PageView.

(** ** MapDisplay.svelte: the component through its life *)

Module MapLifecycle.
Import Supabase MapDisplay.

Definition set_supabase (v : option Client) (s : State) : State :=
  {| supabase := v; mapContainer := mapContainer s; mapInstance := mapInstance s;
     markersLayer := markersLayer s; isLoading := isLoading s;
     mapError := mapError s; L := L s; reports := reports s |}.

(** The map [initializeMap] builds before it fetches. *)
Definition freshMap : Leaflet.Map :=
  {| Leaflet.center := initialCoords;
     Leaflet.zoom := initialZoom;
     Leaflet.tileLayers := [tileUrl];
     Leaflet.hasMarkersLayer := true |}.

(** What happens to the component from outside. *)
Inductive action :=
(** [bind:this={mapContainer}] fills or empties the variable *)
| BindContainer (bound : bool)
(** the parent passes another [supabase], or the same client now answers
    differently *)
| PassClient (client : option Client)
(** [onMount] starts [initializeMap] *)
| Initialize (browser : bool) (import_leaflet : completion bool)
(** the parent calls [refreshData] *)
| Refresh
(** the cleanup function of [onMount] *)
| Destroy.

Section Lifecycle.
Variable toLocaleString : jsstring -> jsstring.

Definition perform (a : action) : Comp unit :=
  match a with
  | BindContainer bound => assign (set_mapContainer bound)
  | PassClient client => assign (set_supabase client)
  | Initialize browser import_leaflet =>
      initializeMap browser import_leaflet toLocaleString
  | Refresh => refreshData toLocaleString
  | Destroy => onDestroy
  end.



End Lifecycle.

End MapLifecycle.

(* ------------------------------------------------------------------ *)
(** * Proofs *)
(* ------------------------------------------------------------------ *)

Unset Implicit Arguments.

(** Texts and string operations stay folded while a run is simplified. *)
Arguments lit : simpl never.
Arguments trim : simpl never.
Arguments showN : simpl never.
Arguments message_of : simpl never.
Arguments ReportForm.requiredMissing : simpl never.
Arguments ReportForm.invalidLocation : simpl never.
Arguments ReportForm.badCoordinates : simpl never.
Arguments ReportForm.locationErrorStatus : simpl never.
Arguments ReportForm.positionOptions : simpl never.
Arguments Page.messageOr : simpl never.
Arguments Page.bucket : simpl never.
Arguments MapDisplay.popupContent : simpl never.
Arguments MapDisplay.reportsQuery : simpl never.
Arguments MapDisplay.tileUrl : simpl never.
Arguments MapDisplay.updateMarkers : simpl never.
Arguments MapDisplay.fetchReports : simpl never.

(** Sequencing two steps whose runs are known. *)
Lemma bind_normal {S Call A B} (m : M S Call A) (k : A -> M S Call B)
      (s s1 s2 : S) (a : A) (r : completion B) (t1 t2 : list (event Call)) :
  m s = (Normal a, s1, t1) ->
  k a s1 = (r, s2, t2) ->
  bind m k s = (r, s2, t1 ++ t2).
Proof.
  intros Hm Hk. unfold bind. now rewrite Hm, Hk.
Qed.

Lemma calls_app {Call} (t1 t2 : list (event Call)) :
  calls (t1 ++ t2) = calls t1 ++ calls t2.
Proof.
  induction t1 as [|[lvl txt|c] t1 IH]; simpl; [reflexivity | assumption |].
  now rewrite IH.
Qed.

(* ------------------------------------------------------------------ *)
(** * MapDisplay: refresh before the map exists *)
(* ------------------------------------------------------------------ *)

Module MapDisplayRefreshGuard.
Import MapDisplay.

(** C8.  When [refreshData] is called while [mapInstance] is still null, it
    completes normally, leaves every component variable as it was, and the
    only thing it does is log one warning: no select is sent. *)
Theorem refreshData_without_map_is_noop :
  forall (toLocaleString : jsstring -> jsstring) (s : State),
    mapInstance s = None ->
    refreshData toLocaleString s =
      (Normal tt, s,
       [Console lvl_warn (lit "[MapDisplay] refreshData called, but map is not ready.")]).
Proof.
  intros tls s Hmap.
  unfold refreshData, read, gets, bind.
  rewrite Hmap.
  reflexivity.
Qed.

Lemma refreshData_without_map_is_noop_witness :
  refreshData (fun d => d) (initial None) =
    (Normal tt, initial None,
     [Console lvl_warn (lit "[MapDisplay] refreshData called, but map is not ready.")]).
Proof.
  apply (refreshData_without_map_is_noop (fun d => d) (initial None)).
  reflexivity.
Defined.

End MapDisplayRefreshGuard.

(* ------------------------------------------------------------------ *)
(** * ReportForm: validation before [onSubmit] *)
(* ------------------------------------------------------------------ *)

Module ReportFormValidation.
Import ReportForm.

Lemma trimStart_blank (s : jsstring) :
  blank s = true -> trimStart s = [].
Proof.
  unfold blank.
  induction s as [|c s IH]; simpl; [reflexivity|].
  intros H. apply andb_true_iff in H as [Hc Hs].
  rewrite Hc. now apply IH.
Qed.

Lemma trim_blank (s : jsstring) :
  blank s = true -> trim s = [].
Proof.
  intros H. unfold trim. now rewrite (trimStart_blank s H).
Qed.

(** What [handleSubmit] does when its first guard fires. *)
Lemma handleSubmit_required_missing {W} (onSubmit : ReportData.t -> W -> completion unit * W)
      (f : Form) (w : W) :
  requiredFieldMissing f = true ->
  handleSubmit onSubmit (f, w) =
    (Normal tt, (set_formError (Some requiredMissing) f, w), []).
Proof.
  unfold requiredFieldMissing. intros H.
  unfold handleSubmit, read, assign, gets, modify, bind. cbn.
  rewrite H. reflexivity.
Qed.

(** What [handleSubmit] does when only its second guard fires. *)
Lemma handleSubmit_invalid_location {W} (onSubmit : ReportData.t -> W -> completion unit * W)
      (f : Form) (w : W) :
  requiredFieldMissing f = false ->
  invalidCoordinates (latitude f) (longitude f) = true ->
  handleSubmit onSubmit (f, w) =
    (Normal tt, (set_formError (Some invalidLocation) f, w), []).
Proof.
  unfold requiredFieldMissing. intros Hreq Hbad.
  unfold handleSubmit, read, assign, gets, modify, bind. cbn.
  rewrite Hreq. cbn.
  destruct (latitude f) as [la|], (longitude f) as [lo|]; try reflexivity.
  replace (badCoordinates la lo) with true; [reflexivity|].
  unfold badCoordinates. simpl in Hbad. rewrite <- Hbad.
  rewrite !orb_assoc. reflexivity.
Qed.

Lemma invalidCoordinates_bad (la lo : number) :
  badCoordinates la lo = invalidCoordinates (Some la) (Some lo).
Proof.
  unfold badCoordinates, invalidCoordinates.
  now rewrite !orb_assoc.
Qed.

(** What [handleSubmit] does once both guards are passed and [onSubmit]
    completes. *)
Lemma handleSubmit_completed {W} (onSubmit : ReportData.t -> W -> completion unit * W)
      (f : Form) (w w' : W) (la lo : number) :
  requiredFieldMissing f = false ->
  latitude f = Some la ->
  longitude f = Some lo ->
  invalidCoordinates (Some la) (Some lo) = false ->
  onSubmit (reportDataOf f la lo) w = (Normal tt, w') ->
  handleSubmit onSubmit (f, w) =
    (Normal tt,
     (set_isSubmitting false (set_locationStatus [] (set_formError None f)), w'),
     [Console lvl_log (lit "Report submitted successfully.")]).
Proof.
  unfold requiredFieldMissing. intros Hreq Hla Hlo Hok Hcb.
  rewrite <- invalidCoordinates_bad in Hok.
  unfold handleSubmit, read, assign, gets, modify, bind. cbn.
  rewrite Hreq. cbn. rewrite Hla, Hlo, Hok. cbn.
  unfold tryFinally, tryCatch, await_onSubmit, bind, console. cbn.
  unfold reportDataOf in Hcb. rewrite Hcb. reflexivity.
Qed.

(** C2.  When the description is empty or holds nothing but white space,
    [handleSubmit] stops at its first guard: the form shows the
    required-fields error, nothing else in the form changes, and the world
    outside the form is handed back untouched whatever [onSubmit] would have
    done with it, so the callback was not run.  With the page's
    [handleReportSubmit] as the callback this means the page's variables and
    its list of backend calls are as before. *)
Theorem blank_description_is_rejected :
  forall (W : Type) (onSubmit : ReportData.t -> W -> completion unit * W)
         (f : Form) (w : W),
    blank (description f) = true ->
    handleSubmit onSubmit (f, w) =
      (Normal tt, (set_formError (Some requiredMissing) f, w), [])
    /\ forall (now : N) (randomSuffix : jsstring) (page : App.World),
         state (App.handleSubmit now randomSuffix (f, page)) =
           (set_formError (Some requiredMissing) f, page).
Proof.
  intros W onSubmit f w Hblank.
  assert (Hreq : requiredFieldMissing f = true).
  { unfold requiredFieldMissing. rewrite (trim_blank _ Hblank).
    simpl. apply orb_true_r. }
  split.
  - now apply handleSubmit_required_missing.
  - intros now randomSuffix page. unfold App.handleSubmit.
    now rewrite handleSubmit_required_missing.
Qed.

(** A form whose description is two spaces and a line separator, with a
    callback that counts how often it runs. *)
Lemma blank_description_is_rejected_witness :
  let f := {| pollutionType := lit "Sewage Leak";
              description := [32; 32; 0x2028]%N;
              latitude := Some 27.5%float;
              longitude := Some 85.25%float;
              imageFile := None;
              isSubmitting := false;
              locationStatus := [];
              formError := None |} in
  let count := fun (_ : ReportData.t) (n : nat) => (Normal tt, S n) in
  handleSubmit count (f, 0) =
    (Normal tt, (set_formError (Some requiredMissing) f, 0), []).
Proof.
  intros f count.
  apply (blank_description_is_rejected nat count f 0).
  reflexivity.
Defined.

(** C3, as stated, fails: with a latitude of 95 and a description that is a
    single space, the submission is rejected, but with the required-fields
    error of the first guard and not with the invalid-location error. *)
Lemma out_of_range_latitude_with_blank_description :
  let f := {| pollutionType := lit "Sewage Leak";
              description := [32%N];
              latitude := Some 95%float;
              longitude := Some 85.25%float;
              imageFile := None;
              isSubmitting := false;
              locationStatus := [];
              formError := None |} in
  let r := handleSubmit (fun (_ : ReportData.t) (w : unit) => (Normal tt, w)) (f, tt) in
  invalidCoordinates (latitude f) (longitude f) = true
  /\ formError (fst (state r)) = Some requiredMissing
  /\ formError (fst (state r)) <> Some invalidLocation.
Proof.
  vm_compute. repeat split. discriminate.
Qed.

(** C3, amended.  When a coordinate is missing, NaN or out of range,
    [handleSubmit] rejects the submission without running [onSubmit]: the
    world outside the form is handed back untouched.  The error shown is the
    invalid-location one when the pollution type and the trimmed description
    are non-empty; otherwise the required-fields guard, which comes first,
    has already rejected the submission with its own message. *)
Theorem invalid_coordinates_are_rejected :
  forall (W : Type) (onSubmit : ReportData.t -> W -> completion unit * W)
         (f : Form) (w : W),
    invalidCoordinates (latitude f) (longitude f) = true ->
    handleSubmit onSubmit (f, w) =
      (Normal tt,
       (set_formError
          (Some (if requiredFieldMissing f then requiredMissing else invalidLocation)) f,
        w),
       []).
Proof.
  intros W onSubmit f w Hbad.
  destruct (requiredFieldMissing f) eqn:Hreq.
  - now apply handleSubmit_required_missing.
  - now apply handleSubmit_invalid_location.
Qed.

(** A complete form whose longitude is NaN. *)
Lemma invalid_coordinates_are_rejected_witness :
  let f := {| pollutionType := lit "Air Pollution";
              description := lit "smoke";
              latitude := Some 27.5%float;
              longitude := Some nan;
              imageFile := None;
              isSubmitting := false;
              locationStatus := [];
              formError := None |} in
  let count := fun (_ : ReportData.t) (n : nat) => (Normal tt, S n) in
  handleSubmit count (f, 0) =
    (Normal tt, (set_formError (Some invalidLocation) f, 0), []).
Proof.
  intros f count.
  apply (invalid_coordinates_are_rejected nat count f 0).
  reflexivity.
Defined.

(** C6, as stated, fails: a valid form whose callback completes comes out of
    [handleSubmit] without an error and with its category, description and
    coordinates still filled in. *)
Lemma submitted_form_is_not_cleared :
  let f := {| pollutionType := lit "Sewage Leak";
              description := lit "x";
              latitude := Some 27.5%float;
              longitude := Some 85.25%float;
              imageFile := None;
              isSubmitting := false;
              locationStatus := [];
              formError := None |} in
  let r := handleSubmit (fun (_ : ReportData.t) (w : unit) => (Normal tt, w)) (f, tt) in
  result r = Normal tt
  /\ formError (fst (state r)) = None
  /\ description (fst (state r)) = lit "x"
  /\ ~ pendingReportCleared (fst (state r)).
Proof.
  vm_compute. repeat split.
  intros (H & _). discriminate H.
Qed.

(** C6, amended.  On every successful submit (both guards passed and
    [onSubmit] completed) the form keeps its category, description,
    coordinates and image file as they were entered.  What changes is the
    transient state: [isSubmitting] is false again, [locationStatus] is
    emptied and [formError] is null. *)
Theorem successful_submit_keeps_the_fields :
  forall (W : Type) (onSubmit : ReportData.t -> W -> completion unit * W)
         (f : Form) (w w' : W) (la lo : number),
    requiredFieldMissing f = false ->
    latitude f = Some la ->
    longitude f = Some lo ->
    invalidCoordinates (Some la) (Some lo) = false ->
    onSubmit (reportDataOf f la lo) w = (Normal tt, w') ->
    let r := handleSubmit onSubmit (f, w) in
    let f' := fst (state r) in
    result r = Normal tt
    /\ snd (state r) = w'
    /\ pollutionType f' = pollutionType f
    /\ description f' = description f
    /\ latitude f' = latitude f
    /\ longitude f' = longitude f
    /\ imageFile f' = imageFile f
    /\ isSubmitting f' = false
    /\ locationStatus f' = []
    /\ formError f' = None.
Proof.
  intros W onSubmit f w w' la lo Hreq Hla Hlo Hok Hcb r f'.
  subst f' r.
  rewrite (handleSubmit_completed onSubmit f w w' la lo Hreq Hla Hlo Hok Hcb).
  cbn. repeat split.
Qed.

Lemma successful_submit_keeps_the_fields_witness :
  let f := {| pollutionType := lit "Sewage Leak";
              description := lit " x ";
              latitude := Some 27.5%float;
              longitude := Some 85.25%float;
              imageFile := None;
              isSubmitting := false;
              locationStatus := lit "Location: 27.50000, 85.25000";
              formError := Some invalidLocation |} in
  let count := fun (_ : ReportData.t) (n : nat) => (Normal tt, S n) in
  let f' := fst (state (handleSubmit count (f, 0))) in
  description f' = lit " x " /\ latitude f' = Some 27.5%float /\ snd (state (handleSubmit count (f, 0))) = 1.
Proof.
  intros f count f'.
  destruct (successful_submit_keeps_the_fields nat count f 0 1 27.5%float 85.25%float)
    as (_ & Hw & _ & Hd & Hla & _); try reflexivity.
  repeat split; assumption.
Defined.

End ReportFormValidation.

(* ------------------------------------------------------------------ *)
(** * ReportForm: acquiring the location *)
(* ------------------------------------------------------------------ *)

Module ReportFormLocation.
Import ReportForm.

(** The classification of a rejected request, by error code. *)
Lemma locationErrorStatus_by_code (err : Geolocation.GeolocationPositionError) :
  locationErrorStatus err =
    match Geolocation.code err with
    | 1%N => lit "Permission denied. Please enable location access."
    | 2%N => lit "Location unavailable."
    | 3%N => lit "Location request timed out."
    | _ => lit "Failed to get location."
    end.
Proof.
  unfold locationErrorStatus.
  destruct (Geolocation.code err) as [|[[| |]|[| |]|]]; reflexivity.
Qed.

Lemma locationErrorStatus_classified (err : Geolocation.GeolocationPositionError) :
  In (locationErrorStatus err) locationFailureMessages.
Proof.
  rewrite locationErrorStatus_by_code. unfold locationFailureMessages.
  destruct (Geolocation.code err) as [|[[| |]|[| |]|]]; simpl; auto.
Qed.

(** C9, as stated, fails for the Unsupported case: where geolocation is
    not available, [getCurrentLocation] reports it and returns, and
    coordinates typed into the form stay as they are. *)
Lemma unsupported_geolocation_keeps_coordinates :
  let f := {| pollutionType := lit "Trash Dump";
              description := [];
              latitude := Some 27.5%float;
              longitude := Some 85.25%float;
              imageFile := None;
              isSubmitting := false;
              locationStatus := [];
              formError := None |} in
  let r := getCurrentLocation (W := unit) (fun _ _ => []) true None (f, tt) in
  locationStatus (fst (state r)) = lit "Geolocation is not supported by your browser."
  /\ latitude (fst (state r)) = Some 27.5%float
  /\ longitude (fst (state r)) = Some 85.25%float
  /\ latitude (fst (state r)) <> None.
Proof.
  vm_compute. repeat split. discriminate.
Qed.

(** C9, amended.  [getCurrentLocation] sends at most one request, a
    [getCurrentPosition] asking for high accuracy, with a timeout of 10000 ms
    and a maximum age of 0.  When the request is rejected, the status is one
    of the four failure messages, chosen by the error code (permission
    denied, position unavailable, timeout, anything else), and latitude and
    longitude are both set to null.  When geolocation is not available, the
    status says so, no request is sent, and latitude and longitude are left
    as they were. *)
Theorem location_request_and_failures :
  forall (W : Type) (toFixed : number -> N -> jsstring) (browser : bool)
         (navigator_geolocation : option Geolocation.t) (f : Form) (w : W),
    let r := getCurrentLocation toFixed browser navigator_geolocation (f, w) in
    let f' := fst (state r) in
    let request :=
      GetCurrentPosition {| Geolocation.enableHighAccuracy := true;
                            Geolocation.timeout := 10000;
                            Geolocation.maximumAge := 0 |} in
    (calls (trace r) = [] \/ calls (trace r) = [request])
    /\ (forall (g : Geolocation.t) (err : Geolocation.GeolocationPositionError),
          browser = true ->
          navigator_geolocation = Some g ->
          Geolocation.getCurrentPosition g positionOptions = Geolocation.reject err ->
          calls (trace r) = [request]
          /\ locationStatus f' =
               match Geolocation.code err with
               | 1%N => lit "Permission denied. Please enable location access."
               | 2%N => lit "Location unavailable."
               | 3%N => lit "Location request timed out."
               | _ => lit "Failed to get location."
               end
          /\ In (locationStatus f') locationFailureMessages
          /\ latitude f' = None
          /\ longitude f' = None)
    /\ (browser = false \/ navigator_geolocation = None ->
          calls (trace r) = []
          /\ locationStatus f' = lit "Geolocation is not supported by your browser."
          /\ latitude f' = latitude f
          /\ longitude f' = longitude f).
Proof.
  intros W toFixed browser geo f w r f' request.
  subst f' r request.
  unfold getCurrentLocation, read, assign, gets, modify, bind, emit.
  split; [|split].
  - destruct browser, geo as [g|]; cbn; auto.
    destruct (Geolocation.getCurrentPosition g positionOptions); cbn; auto.
  - intros g err -> -> Hrej. cbn. rewrite Hrej. cbn.
    rewrite <- locationErrorStatus_by_code.
    repeat split; try reflexivity.
    apply locationErrorStatus_classified.
  - intros Hno.
    assert (Hnone : (if browser then geo else None) = None).
    { destruct Hno as [-> | ->]; [reflexivity | now destruct browser]. }
    cbn. rewrite Hnone. cbn. repeat split.
Qed.

(** A request that times out, on a form that held coordinates. *)
Lemma location_request_and_failures_witness :
  let f := {| pollutionType := lit "Trash Dump";
              description := [];
              latitude := Some 27.5%float;
              longitude := Some 85.25%float;
              imageFile := None;
              isSubmitting := false;
              locationStatus := [];
              formError := None |} in
  let g := {| Geolocation.getCurrentPosition :=
                fun _ => Geolocation.reject {| Geolocation.code := 3 |} |} in
  let f' := fst (state (getCurrentLocation (W := unit) (fun _ _ => []) true (Some g) (f, tt))) in
  locationStatus f' = lit "Location request timed out."
  /\ latitude f' = None
  /\ longitude f' = None.
Proof.
  intros f g f'.
  destruct (location_request_and_failures unit (fun _ _ => []) true (Some g) f tt)
    as (_ & Hrej & _).
  destruct (Hrej g {| Geolocation.code := 3 |}) as (_ & Hs & _ & Hla & Hlo);
    try reflexivity.
  repeat split; assumption.
Defined.

End ReportFormLocation.

(* ------------------------------------------------------------------ *)
(** * +page: the submission pipeline *)
(* ------------------------------------------------------------------ *)

Module PagePipeline.
Import Page.

(** Case analysis on whatever the run branches on next. *)
Ltac branch :=
  match goal with
  | |- context [match ?x with _ => _ end] =>
      lazymatch x with
      | context [match _ with _ => _ end] => fail
      | _ => destruct x eqn:?
      end
  end.

Ltac run_all := cbn; repeat (branch; cbn).

(** C1.  When the report carries no image file, the pipeline calls neither
    the storage upload nor the table insert: all it may still do is ask the
    map to refresh and set the timer that clears the message.  So an upload
    or an insert in the trace means an image file was provided. *)
Theorem no_image_no_upload_no_insert :
  forall (now : N) (randomSuffix : jsstring) (reportDetails : ReportData.t) (s : State),
    ReportData.imageFile reportDetails = None ->
    let r := handleReportSubmit now randomSuffix reportDetails s in
    existsb isUpload (calls (trace r)) = false
    /\ existsb isInsert (calls (trace r)) = false
    /\ (forall c, In c (calls (trace r)) ->
                  c = RefreshData \/ c = SetTimeout ClearSubmissionMessage 7000).
Proof.
  intros now randomSuffix d s Himg r. subst r.
  unfold handleReportSubmit, read, assign, gets, modify, bind, tryFinally,
    tryCatch, emit, console, ret.
  cbn. rewrite Himg.
  run_all; repeat split; try reflexivity;
    intros call Hcall; cbn in Hcall; intuition auto.
Qed.

Lemma no_image_no_upload_no_insert_witness :
  let client := {| Supabase.storage_upload := fun _ _ _ => None;
                   Supabase.storage_getPublicUrl := fun _ _ => None;
                   Supabase.insert := fun _ _ => None;
                   Supabase.select := fun _ =>
                     {| Supabase.data := None; Supabase.error := None |} |} in
  let d := {| ReportData.pollutionType := lit "Sewage Leak";
              ReportData.description := lit "x";
              ReportData.latitude := 27.5%float;
              ReportData.longitude := 85.25%float;
              ReportData.imageFile := None |} in
  let r := handleReportSubmit 1700000000000 (lit "k3x9qz") d
             (set_supabase (Some client) initial) in
  existsb isUpload (calls (trace r)) = false
  /\ existsb isInsert (calls (trace r)) = false.
Proof.
  intros client d r.
  destruct (no_image_no_upload_no_insert 1700000000000 (lit "k3x9qz") d
              (set_supabase (Some client) initial))
    as (Hu & Hi & _); [reflexivity|].
  split; assumption.
Defined.

(** C5, as stated, fails for the missing backend connection: the page as
    declared has no client yet, the pipeline returns from its first guard
    with the error message in place, and no timer has been set. *)
Lemma missing_connection_sets_no_timer :
  let d := {| ReportData.pollutionType := lit "Sewage Leak";
              ReportData.description := lit "x";
              ReportData.latitude := 27.5%float;
              ReportData.longitude := 85.25%float;
              ReportData.imageFile := None |} in
  let r := handleReportSubmit 1700000000000 (lit "k3x9qz") d initial in
  submissionMessage (state r) =
    Some (lit "Error: Backend connection not ready. Please refresh")
  /\ timers (calls (trace r)) = []
  /\ calls (trace r) = [].
Proof.
  vm_compute. repeat split.
Qed.

(** C5, amended.  After every run of the pipeline that finds the backend
    client in place, whatever its outcome (success, upload failure, insert
    failure), exactly one timer has been set, as the last thing the run
    does: it fires after 7000 ms and sets the status message to null. *)
Theorem status_message_timer_is_set :
  forall (now : N) (randomSuffix : jsstring) (reportDetails : ReportData.t)
         (s : State) (client : Supabase.Client),
    supabase s = Some client ->
    let r := handleReportSubmit now randomSuffix reportDetails s in
    result r = Normal tt
    /\ timers (calls (trace r)) = [(ClearSubmissionMessage, 7000%N)]
    /\ last (trace r) (Console lvl_log []) =
         Invoke (SetTimeout ClearSubmissionMessage 7000)
    /\ submissionMessage (fire ClearSubmissionMessage (state r)) = None
    /\ isProcessing (state r) = false.
Proof.
  intros now randomSuffix d s client Hsb r. subst r.
  unfold handleReportSubmit, uploadAndInsert, read, assign, gets, modify, bind,
    tryFinally, tryCatch, emit, console, ret, throw.
  cbn. rewrite Hsb.
  run_all; repeat split.
Qed.

(** An upload that the storage refuses. *)
Lemma status_message_timer_is_set_witness :
  let client := {| Supabase.storage_upload :=
                     fun _ _ _ => Some {| Supabase.message := lit "Payload too large" |};
                   Supabase.storage_getPublicUrl := fun _ _ => None;
                   Supabase.insert := fun _ _ => None;
                   Supabase.select := fun _ =>
                     {| Supabase.data := None; Supabase.error := None |} |} in
  let d := {| ReportData.pollutionType := lit "Sewage Leak";
              ReportData.description := lit "x";
              ReportData.latitude := 27.5%float;
              ReportData.longitude := 85.25%float;
              ReportData.imageFile :=
                Some {| file_name := lit "drain.jpg"; file_type := lit "image/jpeg" |} |} in
  let r := handleReportSubmit 1700000000000 (lit "k3x9qz") d
             (set_supabase (Some client) initial) in
  timers (calls (trace r)) = [(ClearSubmissionMessage, 7000%N)]
  /\ submissionMessage (state r) =
       Some (lit "Error: Image upload failed: Payload too large").
Proof.
  intros client d r.
  destruct (status_message_timer_is_set 1700000000000 (lit "k3x9qz") d
              (set_supabase (Some client) initial) client)
    as (_ & Ht & _); [reflexivity|].
  split; [assumption | reflexivity].
Defined.

End PagePipeline.

(* ------------------------------------------------------------------ *)
(** * MapDisplay: markers *)
(* ------------------------------------------------------------------ *)

Module MapDisplayMarkers.
Import Supabase MapDisplay.

Section Markers.
Variable tls : jsstring -> jsstring.

Lemma markerOf_invalid (report : PollutionReport) :
  validCoordinates report = false -> markerOf tls report = None.
Proof.
  unfold MapDisplay.markerOf. intros H. rewrite H.
  now destruct (latitude report), (longitude report).
Qed.

Lemma markerOf_valid (report : PollutionReport) :
  validCoordinates report = true ->
  exists lat lon,
    latitude report = Some lat /\ longitude report = Some lon
    /\ isNaN lat = false /\ isNaN lon = false
    /\ markerOf tls report =
         Some {| Leaflet.latlng := (lat, lon);
                 Leaflet.popup := Some (popupContent tls report) |}.
Proof.
  unfold MapDisplay.markerOf. intros H. rewrite H.
  unfold validCoordinates in H.
  destruct (latitude report) as [lat|], (longitude report) as [lon|];
    try discriminate.
  apply andb_true_iff in H as [Hlat Hlon].
  apply negb_true_iff in Hlat, Hlon.
  exists lat, lon. auto.
Qed.

Lemma markersOf_app (rs1 rs2 : list PollutionReport) :
  markersOf tls (rs1 ++ rs2) = markersOf tls rs1 ++ markersOf tls rs2.
Proof.
  induction rs1 as [|r rs1 IH]; simpl; [reflexivity|].
  destruct (markerOf tls r); simpl; now rewrite IH.
Qed.

Lemma markersOf_filter (rs : list PollutionReport) :
  markersOf tls (filter validCoordinates rs) = markersOf tls rs.
Proof.
  induction rs as [|r rs IH]; simpl; [reflexivity|].
  destruct (validCoordinates r) eqn:Hv; simpl.
  - now rewrite IH.
  - now rewrite (markerOf_invalid r Hv).
Qed.

Lemma markersOf_length (rs : list PollutionReport) :
  List.length (markersOf tls rs) = List.length (filter validCoordinates rs).
Proof.
  induction rs as [|r rs IH]; simpl; [reflexivity|].
  destruct (validCoordinates r) eqn:Hv.
  - destruct (markerOf_valid r Hv) as (lat & lon & _ & _ & _ & _ & ->).
    simpl. now rewrite IH.
  - now rewrite (markerOf_invalid r Hv).
Qed.

(** One turn of the [forEach] loop, on a component that has a layer. *)
Lemma renderReport_adds_marker (report : PollutionReport)
      sb mc mi (acc : Leaflet.LayerGroup) il me l rs :
  exists t,
    renderReport tls report
      {| supabase := sb; mapContainer := mc; mapInstance := mi;
         markersLayer := Some acc; isLoading := il; mapError := me;
         L := l; reports := rs |} =
      (Normal tt,
       {| supabase := sb; mapContainer := mc; mapInstance := mi;
          markersLayer := Some (acc ++ (markersOf tls [report])); isLoading := il;
          mapError := me; L := l; reports := rs |},
       t)
    /\ calls t = [].
Proof.
  unfold MapDisplay.renderReport, MapDisplay.markersOf, MapDisplay.markerOf,
    validCoordinates, Leaflet.marker.
  destruct (latitude report) as [lat|], (longitude report) as [lon|];
    try (rewrite app_nil_r; eexists; split; reflexivity).
  destruct (isNaN lat), (isNaN lon); cbn;
    try (rewrite app_nil_r; eexists; split; reflexivity).
  eexists; split; reflexivity.
Qed.

Lemma forEach_renders (reps : list PollutionReport) :
  forall sb mc mi (acc : Leaflet.LayerGroup) il me l rs,
  exists t,
    forEach (renderReport tls) reps
      {| supabase := sb; mapContainer := mc; mapInstance := mi;
         markersLayer := Some acc; isLoading := il; mapError := me;
         L := l; reports := rs |} =
      (Normal tt,
       {| supabase := sb; mapContainer := mc; mapInstance := mi;
          markersLayer := Some (acc ++ markersOf tls reps); isLoading := il;
          mapError := me; L := l; reports := rs |},
       t)
    /\ calls t = [].
Proof.
  induction reps as [|report reps IH]; intros sb mc mi acc il me l rs.
  - exists []. simpl. now rewrite app_nil_r.
  - destruct (renderReport_adds_marker report sb mc mi acc il me l rs)
      as (t1 & Hstep & Ht1).
    destruct (IH sb mc mi (acc ++ (markersOf tls [report])) il me l rs)
      as (t2 & Hrest & Ht2).
    exists (t1 ++ t2). split.
    + simpl forEach.
      etransitivity; [eapply bind_normal; [exact Hstep | exact Hrest] |].
      rewrite <- app_assoc, <- markersOf_app. reflexivity.
    + now rewrite calls_app, Ht1, Ht2.
Qed.

(** [updateMarkers] computes [afterUpdate], completes, and calls nothing. *)
Lemma updateMarkers_run (s : State) :
  exists t,
    updateMarkers tls s = (Normal tt, afterUpdate tls s, t) /\ calls t = [].
Proof.
  destruct s as [sb mc mi ml il me l rs].
  destruct mi as [map|]; [destruct ml as [layer|]; [destruct l|]|];
    try (eexists; split; reflexivity).
  destruct (forEach_renders rs sb mc (Some map) [] il me true rs)
    as (t & Hrun & Ht).
  unfold updateMarkers, afterUpdate, ready, read, assign, gets, modify, bind, console, ret.
  cbv [set_markersLayer]. cbn. unfold Leaflet.LayerGroup in *.
  rewrite Hrun.
  destruct (Leaflet.hasMarkersLayer map); cbn;
    (eexists; split; [reflexivity|]); cbn;
    rewrite calls_app, Ht; reflexivity.
Qed.

(** [fetchReports] computes [afterFetch], completes, and sends one select
    when it has a client. *)
Lemma fetchReports_run (s : State) :
  exists t,
    fetchReports tls s = (Normal tt, afterFetch tls s, t)
    /\ calls t = match supabase s with
                 | Some _ => [Select reportsQuery]
                 | None => []
                 end.
Proof.
  destruct s as [sb mc mi ml il me l rs].
  destruct sb as [client|]; [|eexists; split; reflexivity].
  unfold afterFetch, fetchReports, fetched, fetchError, read, assign, gets,
    modify, bind, tryCatch, emit, console, throw.
  cbn.
  destruct (error (select client reportsQuery)) as [err|] eqn:Herr; cbn.
  - destruct (updateMarkers_run
                {| supabase := Some client; mapContainer := mc; mapInstance := mi;
                   markersLayer := ml; isLoading := il;
                   mapError := Some (lit "Failed to load reports: " ++ message_of err);
                   L := l; reports := [] |}) as (t & Hrun & Ht).
    cbv [set_reports set_mapError]. cbn. rewrite Hrun.
    eexists; split; [reflexivity|]. cbn. now rewrite Ht.
  - destruct (updateMarkers_run
                {| supabase := Some client; mapContainer := mc; mapInstance := mi;
                   markersLayer := ml; isLoading := il; mapError := None;
                   L := l;
                   reports := match data (select client reportsQuery) with
                              | Some rows => rows
                              | None => []
                              end |}) as (t & Hrun & Ht).
    cbv [set_reports set_mapError]. cbn. rewrite Hrun.
    eexists; split; [reflexivity|]. cbn. now rewrite Ht.
Qed.

(** [refreshData] computes [afterRefresh] and completes. *)
Lemma refreshData_run (s : State) :
  exists t,
    refreshData tls s = (Normal tt, afterRefresh tls s, t)
    /\ calls t = match mapInstance s, supabase s with
                 | Some _, Some _ => [Select reportsQuery]
                 | _, _ => []
                 end.
Proof.
  destruct s as [sb mc mi ml il me l rs].
  destruct mi as [map|]; [|eexists; split; reflexivity].
  destruct (fetchReports_run
              {| supabase := sb; mapContainer := mc; mapInstance := Some map;
                 markersLayer := ml; isLoading := true; mapError := None;
                 L := l; reports := rs |}) as (t & Hrun & Ht).
  unfold refreshData, afterRefresh, read, assign, gets, modify, bind, tryFinally, console.
  cbn. cbv [set_isLoading set_mapError]. cbn. rewrite Hrun.
  eexists; split; [reflexivity|]. cbn. rewrite app_nil_r. exact Ht.
Qed.

Lemma updateMarkers_state (s : State) :
  state (updateMarkers tls s) = afterUpdate tls s.
Proof.
  destruct (updateMarkers_run s) as (t & -> & _). reflexivity.
Qed.

Lemma fetchReports_state (s : State) :
  state (fetchReports tls s) = afterFetch tls s.
Proof.
  destruct (fetchReports_run s) as (t & -> & _). reflexivity.
Qed.

Lemma refreshData_state (s : State) :
  state (refreshData tls s) = afterRefresh tls s.
Proof.
  destruct (refreshData_run s) as (t & -> & _). reflexivity.
Qed.

(** Refreshing a refreshed component leaves the marker layer as it is. *)
Lemma afterRefresh_markers_idempotent (s : State) :
  markersLayer (afterRefresh tls (afterRefresh tls s)) =
  markersLayer (afterRefresh tls s).
Proof.
  destruct s as [sb mc mi ml il me l rs].
  destruct mi as [map|]; [|reflexivity].
  destruct sb as [client|]; [|reflexivity].
  destruct ml as [layer|]; [|reflexivity].
  destruct l; reflexivity.
Qed.

End Markers.

(** C4.  On a component whose map is ready, [updateMarkers] completes
    without raising, and the layer it leaves holds exactly the markers of the
    reports taken one by one: a report whose latitude or longitude is null or
    NaN has no marker, a report with both coordinates has one, at those
    coordinates.  Taking the invalid reports out of the list beforehand
    gives the same layer, and there are as many markers as valid reports. *)
Theorem invalid_coordinates_are_skipped :
  forall (tls : jsstring -> jsstring) (s : State),
    ready s = true ->
    let r := updateMarkers tls s in
    result r = Normal tt
    /\ markersLayer (state r) = Some (markersOf tls (reports s))
    /\ (forall report, validCoordinates report = false ->
                       markerOf tls report = None)
    /\ (forall report, validCoordinates report = true ->
           exists lat lon,
             latitude report = Some lat /\ longitude report = Some lon
             /\ markerOf tls report =
                  Some {| Leaflet.latlng := (lat, lon);
                          Leaflet.popup := Some (popupContent tls report) |})
    /\ markersLayer
         (state (updateMarkers tls (set_reports (filter validCoordinates (reports s)) s))) =
       markersLayer (state r)
    /\ markerCount (state r) = List.length (filter validCoordinates (reports s)).
Proof.
  intros tls s Hready r. subst r.
  destruct (updateMarkers_run tls s) as (t & Hrun & _).
  rewrite Hrun, updateMarkers_state.
  assert (Hlayer : markersLayer (afterUpdate tls s) = Some (markersOf tls (reports s))).
  { unfold afterUpdate. unfold ready in Hready.
    destruct s as [sb mc [map|] [layer|] il me l rs]; try discriminate.
    cbn in *. now rewrite Hready. }
  assert (Hfiltered :
            markersLayer (afterUpdate tls (set_reports (filter validCoordinates (reports s)) s)) =
            Some (markersOf tls (reports s))).
  { unfold afterUpdate. unfold ready in Hready.
    destruct s as [sb mc [map|] [layer|] il me l rs]; try discriminate.
    cbn in *. rewrite Hready. cbn. now rewrite markersOf_filter. }
  cbn [result state fst snd].
  repeat split.
  - exact Hlayer.
  - apply markerOf_invalid.
  - intros report Hv.
    destruct (markerOf_valid tls report Hv) as (lat & lon & Hla & Hlo & _ & _ & Hm).
    exists lat, lon. auto.
  - now rewrite Hfiltered, Hlayer.
  - unfold markerCount. rewrite Hlayer. apply markersOf_length.
Qed.

(** A component mounted in the browser against a table of three reports:
    one at (27.7, 85.3), one without a latitude, one whose longitude is
    NaN. *)
Lemma invalid_coordinates_are_skipped_witness :
  let rows :=
    [ {| id := lit "a1"; created_at := lit "2025-05-01T10:00:00Z";
         latitude := Some 27.7%float; longitude := Some 85.3%float;
         pollution_type := Some (lit "Sewage Leak"); description := Some (lit "x");
         image_url := None |};
      {| id := lit "b2"; created_at := lit "2025-05-01T11:00:00Z";
         latitude := None; longitude := Some 85.3%float;
         pollution_type := Some (lit "Other"); description := None;
         image_url := None |};
      {| id := lit "c3"; created_at := lit "2025-05-01T12:00:00Z";
         latitude := Some 27.7%float; longitude := Some nan;
         pollution_type := None; description := Some (lit "y");
         image_url := None |} ] in
  let client := {| storage_upload := fun _ _ _ => None;
                   storage_getPublicUrl := fun _ _ => None;
                   insert := fun _ _ => None;
                   select := fun _ => {| data := Some rows; error := None |} |} in
  let s := state (initializeMap true (Normal true) (fun d => d)
                    (set_mapContainer true (initial (Some client)))) in
  result (updateMarkers (fun d => d) s) = Normal tt
  /\ markerCount (state (updateMarkers (fun d => d) s)) = 1.
Proof.
  intros rows client s.
  destruct (invalid_coordinates_are_skipped (fun d => d) s)
    as (Hres & _ & _ & _ & _ & Hcount); [vm_compute; reflexivity|].
  split; [exact Hres | exact Hcount].
Defined.

(** C7.  Refreshing twice against the same client gives the same marker
    layer both times, hence the same marker count and the same positions: the
    second refresh adds nothing to what the first one left.  On a component
    whose map is ready and which has a client, the layer after a refresh is
    rebuilt from the fetched rows alone, whatever the layer held before. *)
Theorem refresh_twice_same_markers :
  forall (tls : jsstring -> jsstring) (s : State),
    let s1 := state (refreshData tls s) in
    let s2 := state (refreshData tls s1) in
    supabase s1 = supabase s
    /\ markersLayer s2 = markersLayer s1
    /\ markerCount s2 = markerCount s1
    /\ markerPositions s2 = markerPositions s1
    /\ (forall client,
          ready s = true ->
          supabase s = Some client ->
          markersLayer s1 = Some (markersOf tls (fetched client))).
Proof.
  intros tls s s1 s2. subst s2 s1.
  rewrite !refreshData_state.
  pose proof (afterRefresh_markers_idempotent tls s) as Hsame.
  unfold markerCount, markerPositions. rewrite Hsame.
  repeat split.
  - destruct s as [sb mc [map|] [layer|] il me [|] rs]; destruct sb; reflexivity.
  - intros client Hready Hsb. unfold ready in Hready.
    destruct s as [sb mc [map|] [layer|] il me l rs]; try discriminate.
    cbn in Hready, Hsb. subst sb l. reflexivity.
Qed.

(** A component mounted in the browser against a table of one report. *)
Lemma refresh_twice_same_markers_witness :
  let rows :=
    [ {| id := lit "a1"; created_at := lit "2025-05-01T10:00:00Z";
         latitude := Some 27.7%float; longitude := Some 85.3%float;
         pollution_type := Some (lit "Sewage Leak"); description := Some (lit "x");
         image_url := None |} ] in
  let client := {| storage_upload := fun _ _ _ => None;
                   storage_getPublicUrl := fun _ _ => None;
                   insert := fun _ _ => None;
                   select := fun _ => {| data := Some rows; error := None |} |} in
  let s := state (initializeMap true (Normal true) (fun d => d)
                    (set_mapContainer true (initial (Some client)))) in
  markersLayer (state (refreshData (fun d => d) s)) =
    Some (markersOf (fun d => d) (fetched client))
  /\ markerPositions (state (refreshData (fun d => d) s)) = [(27.7, 85.3)%float].
Proof.
  intros rows client s.
  destruct (refresh_twice_same_markers (fun d => d) s) as (_ & _ & _ & _ & Hrebuilt).
  assert (H : markersLayer (state (refreshData (fun d => d) s)) =
              Some (markersOf (fun d => d) (fetched client))).
  { apply Hrebuilt; vm_compute; reflexivity. }
  split; [exact H|].
  unfold markerPositions. rewrite H. vm_compute. reflexivity.
Defined.

(** C10.  When the select answers with an error, [fetchReports] still
    completes: it stores the error message, empties [reports], and runs
    [updateMarkers] on that empty list, so on a component whose map is ready
    the marker layer ends up empty. *)
Theorem fetch_failure_clears_markers :
  forall (tls : jsstring -> jsstring) (s : State) (client : Client) (err : thrown),
    supabase s = Some client ->
    error (select client reportsQuery) = Some err ->
    let r := fetchReports tls s in
    let failed :=
      set_reports []
        (set_mapError (Some (lit "Failed to load reports: " ++ message_of err)) s) in
    result r = Normal tt
    /\ reports (state r) = []
    /\ mapError (state r) = Some (lit "Failed to load reports: " ++ message_of err)
    /\ state r = state (updateMarkers tls failed)
    /\ (ready s = true ->
        markersLayer (state r) = Some [] /\ markerCount (state r) = 0).
Proof.
  intros tls s client err Hsb Herr r failed. subst r failed.
  destruct (fetchReports_run tls s) as (t & Hrun & _).
  rewrite updateMarkers_state, Hrun. cbn [result state fst snd].
  unfold afterFetch. rewrite Hsb. unfold fetched, fetchError. rewrite Herr.
  destruct s as [sb mc mi ml il me l rs].
  split; [reflexivity|].
  split; [destruct mi as [map|], ml as [layer|], l; reflexivity|].
  split; [destruct mi as [map|], ml as [layer|], l; reflexivity|].
  split; [reflexivity|].
  intros Hready. unfold ready in Hready.
  destruct mi as [map|], ml as [layer|]; try discriminate.
  cbn in Hready. subst l. split; reflexivity.
Qed.

Lemma fetch_failure_clears_markers_witness :
  let rows :=
    [ {| id := lit "a1"; created_at := lit "2025-05-01T10:00:00Z";
         latitude := Some 27.7%float; longitude := Some 85.3%float;
         pollution_type := Some (lit "Sewage Leak"); description := Some (lit "x");
         image_url := None |} ] in
  let err := OtherObject (Some (lit "permission denied for table pollution_reports")) in
  let client := {| storage_upload := fun _ _ _ => None;
                   storage_getPublicUrl := fun _ _ => None;
                   insert := fun _ _ => None;
                   select := fun _ => {| data := None; error := Some err |} |} in
  let s := {| supabase := Some client; mapContainer := true;
              mapInstance := Some {| Leaflet.center := initialCoords;
                                     Leaflet.zoom := initialZoom;
                                     Leaflet.tileLayers := [tileUrl];
                                     Leaflet.hasMarkersLayer := true |};
              markersLayer := Some (markersOf (fun d => d) rows);
              isLoading := false; mapError := None; L := true;
              reports := rows |} in
  reports (state (fetchReports (fun d => d) s)) = []
  /\ markersLayer (state (fetchReports (fun d => d) s)) = Some [].
Proof.
  intros rows err client s.
  destruct (fetch_failure_clears_markers (fun d => d) s client err)
    as (_ & Hreports & _ & _ & Hlayer); [reflexivity | reflexivity |].
  split; [exact Hreports | apply Hlayer; reflexivity].
Defined.

End MapDisplayMarkers.

(* ------------------------------------------------------------------ *)
(** * Loops *)
(* ------------------------------------------------------------------ *)

Module Loops.

(** What every turn of a [forEach] keeps, the whole loop keeps, also when a
    turn throws and the loop stops there. *)
Lemma forEach_keeps {S Call A} (P : S -> Prop) (body : A -> M S Call unit) :
  (forall a s, P s -> P (state (body a s))) ->
  forall xs s, P s -> P (state (forEach body xs s)).
Proof.
  intros Hbody xs. induction xs as [|x xs IH]; intros s Hs; [exact Hs|].
  simpl forEach. unfold bind.
  specialize (Hbody x s Hs).
  destruct (body x s) as [[[u|e] s1] t1]; cbn in Hbody |- *; [|exact Hbody].
  specialize (IH s1 Hbody).
  destruct (forEach body xs s1) as [[r s2] t2]. exact IH.
Qed.

End Loops.

(* ------------------------------------------------------------------ *)
(** * ReportForm: what reaches [onSubmit] *)
(* ------------------------------------------------------------------ *)

Module FormBehaviour.
Import ReportForm.

(** *** [trim] *)

Lemma blank_app (a b : jsstring) :
  blank (a ++ b) = (blank a && blank b)%bool.
Proof. unfold blank. apply forallb_app. Qed.

Lemma blank_rev (a : jsstring) : blank (rev a) = blank a.
Proof.
  induction a as [|c a IH]; [reflexivity|].
  simpl rev. rewrite blank_app, IH. cbn. rewrite andb_true_r. apply andb_comm.
Qed.

(** [trimStart] drops a blank prefix and stops at a character that is not
    white space. *)
Lemma trimStart_split (s : jsstring) :
  exists p, s = p ++ trimStart s /\ blank p = true
            /\ match trimStart s with
               | c :: _ => isWhiteSpace c = false
               | [] => True
               end.
Proof.
  induction s as [|c s (p & Hs & Hp & Hhd)].
  - exists []. now split.
  - simpl. destruct (isWhiteSpace c) eqn:Hc.
    + exists (c :: p). repeat split; [cbn; now f_equal | | assumption].
      unfold blank in *. cbn. now rewrite Hc.
    + exists []. cbn. now rewrite Hc.
Qed.

Lemma trimStart_fixed (s : jsstring) :
  match s with
  | c :: _ => isWhiteSpace c = false
  | [] => True
  end ->
  trimStart s = s.
Proof. destruct s as [|c s]; [reflexivity|]. simpl. now intros ->. Qed.

(** [trim] cuts a blank prefix and a blank suffix off, and what is left
    neither starts nor ends with white space. *)
Lemma trim_split (s : jsstring) :
  exists p q,
    s = p ++ trim s ++ q /\ blank p = true /\ blank q = true
    /\ match trim s with
       | c :: _ => isWhiteSpace c = false
       | [] => True
       end
    /\ match rev (trim s) with
       | c :: _ => isWhiteSpace c = false
       | [] => True
       end.
Proof.
  destruct (trimStart_split s) as (p & Hs & Hp & Hhd).
  destruct (trimStart_split (rev (trimStart s))) as (q & Hr & Hq & Hlast).
  unfold trim, trimEnd. set (u := trimStart s) in *.
  set (v := trimStart (rev u)) in *.
  assert (Hu : u = rev v ++ rev q).
  { rewrite <- rev_app_distr, <- Hr. now rewrite rev_involutive. }
  exists p, (rev q). rewrite rev_involutive.
  repeat split.
  - now rewrite <- Hu.
  - assumption.
  - now rewrite blank_rev.
  - destruct (rev v) as [|c w] eqn:Hv; [exact I|].
    rewrite Hu in Hhd. exact Hhd.
  - exact Hlast.
Qed.

Lemma trim_nil_blank (s : jsstring) : trim s = [] <-> blank s = true.
Proof.
  split.
  - intros Ht. destruct (trim_split s) as (p & q & Hs & Hp & Hq & _).
    rewrite Ht in Hs. rewrite Hs, blank_app, Hp. exact Hq.
  - unfold trim, trimEnd. intros Hb.
    destruct (trimStart_split s) as (p & Hs & Hp & Hhd).
    destruct (trimStart s) as [|c u] eqn:Hu; [reflexivity|].
    rewrite Hs, blank_app in Hb. apply andb_true_iff in Hb as [_ Hb].
    cbn in Hb. rewrite Hhd in Hb. discriminate.
Qed.

Lemma trim_idempotent (s : jsstring) : trim (trim s) = trim s.
Proof.
  destruct (trim_split s) as (_ & _ & _ & _ & _ & Hhd & Hlast).
  set (t := trim s) in *. unfold trim, trimEnd.
  rewrite (trimStart_fixed t Hhd), (trimStart_fixed (rev t) Hlast).
  apply rev_involutive.
Qed.

(** *** [handleSubmit] *)

(** What [handleSubmit] does once both guards are passed, whatever the
    callback does. *)
Lemma handleSubmit_accepted {W} (onSubmit : ReportData.t -> W -> completion unit * W)
      (f : Form) (w : W) (la lo : number) :
  requiredFieldMissing f = false ->
  latitude f = Some la ->
  longitude f = Some lo ->
  invalidCoordinates (Some la) (Some lo) = false ->
  handleSubmit onSubmit (f, w) =
    match onSubmit (reportDataOf f la lo) w with
    | (Normal _, w') =>
        (Normal tt, (FormSession.submitted None f, w'),
         [Console lvl_log (lit "Report submitted successfully.")])
    | (Abrupt e, w') =>
        (Normal tt,
         (FormSession.submitted (Some (lit "Failed to submit: " ++
                           match e with
                           | ErrorObject m => m
                           | OtherObject _ => lit "Unknown error"
                           end)) f, w'),
         [Console lvl_error (lit "Submission failed:")])
    end.
Proof.
  unfold requiredFieldMissing. intros Hreq Hla Hlo Hok.
  rewrite <- ReportFormValidation.invalidCoordinates_bad in Hok.
  unfold handleSubmit, read, assign, gets, modify, bind. cbn.
  rewrite Hreq. cbn. rewrite Hla, Hlo, Hok. cbn.
  unfold tryFinally, tryCatch, await_onSubmit, bind, console, modify. cbn.
  unfold reportDataOf.
  destruct (onSubmit _ w) as [[u|e] w']; reflexivity.
Qed.

(** The two guards, told apart. *)
Lemma handleSubmit_cases {W} (onSubmit : ReportData.t -> W -> completion unit * W)
      (f : Form) (w : W) :
  (exists msg,
      (msg = requiredMissing \/ msg = invalidLocation)
      /\ handleSubmit onSubmit (f, w) = (Normal tt, (set_formError (Some msg) f, w), []))
  \/ (exists la lo,
        requiredFieldMissing f = false
        /\ latitude f = Some la /\ longitude f = Some lo
        /\ invalidCoordinates (Some la) (Some lo) = false).
Proof.
  destruct (requiredFieldMissing f) eqn:Hreq.
  - left. exists requiredMissing. split; [now left|].
    now apply ReportFormValidation.handleSubmit_required_missing.
  - destruct (invalidCoordinates (latitude f) (longitude f)) eqn:Hbad.
    + left. exists invalidLocation. split; [now right|].
      now apply ReportFormValidation.handleSubmit_invalid_location.
    + right. destruct (latitude f) as [la|], (longitude f) as [lo|];
        try discriminate.
      exists la, lo. auto.
Qed.

Lemma requiredFieldMissing_false (f : Form) :
  requiredFieldMissing f = false <->
  truthy (pollutionType f) = true /\ blank (description f) = false.
Proof.
  unfold requiredFieldMissing. rewrite orb_false_iff, !negb_false_iff.
  split; intros [Hp Hd]; split; try assumption.
  - destruct (blank (description f)) eqn:Hb; [|reflexivity].
    apply trim_nil_blank in Hb. now rewrite Hb in Hd.
  - destruct (trim (description f)) eqn:Ht; [|reflexivity].
    apply trim_nil_blank in Ht. congruence.
Qed.

Lemma invalidCoordinates_false (la lo : number) :
  invalidCoordinates (Some la) (Some lo) = false <->
  isNaN la = false /\ isNaN lo = false
  /\ (la <? -90)%float = false /\ (90 <? la)%float = false
  /\ (lo <? -180)%float = false /\ (180 <? lo)%float = false.
Proof.
  unfold invalidCoordinates. rewrite !orb_false_iff. tauto.
Qed.

(** X1.  Whatever the form holds and whatever the callback is,
    [handleSubmit] either rejects (one of the two validation messages, the
    callback not run) or runs the callback exactly on [reportDataOf]: then
    the pollution type is non-empty, the description has a character that
    is not white space, neither coordinate is NaN, the latitude is neither
    below -90 nor above 90 and the longitude neither below -180 nor above
    180. *)
Theorem submit_hands_over_checked_data :
  forall (W : Type) (onSubmit : ReportData.t -> W -> completion unit * W)
         (f : Form) (w : W),
    let r := handleSubmit onSubmit (f, w) in
    (snd (state r) = w
     /\ (formError (fst (state r)) = Some requiredMissing
         \/ formError (fst (state r)) = Some invalidLocation))
    \/ (exists la lo,
          latitude f = Some la /\ longitude f = Some lo
          /\ truthy (pollutionType f) = true
          /\ blank (description f) = false
          /\ isNaN la = false /\ isNaN lo = false
          /\ (la <? -90)%float = false /\ (90 <? la)%float = false
          /\ (lo <? -180)%float = false /\ (180 <? lo)%float = false
          /\ snd (state r) = snd (onSubmit (reportDataOf f la lo) w)).
Proof.
  intros W onSubmit f w r. subst r.
  destruct (handleSubmit_cases onSubmit f w)
    as [(msg & Hmsg & ->) | (la & lo & Hreq & Hla & Hlo & Hok)].
  - left. cbn. split; [reflexivity|]. destruct Hmsg as [-> | ->]; auto.
  - right. exists la, lo.
    rewrite (handleSubmit_accepted onSubmit f w la lo Hreq Hla Hlo Hok).
    apply requiredFieldMissing_false in Hreq as [Hp Hd].
    apply invalidCoordinates_false in Hok as (H1 & H2 & H3 & H4 & H5 & H6).
    repeat split; try assumption.
    destruct (onSubmit _ w) as [[u|e] w']; reflexivity.
Qed.


(** X3.  When the callback throws, [handleSubmit] itself still completes:
    the form shows "Failed to submit: " followed by the message of the
    thrown [Error] (or "Unknown error" for any other thrown value), logs the
    failure, is no longer submitting, and keeps everything that was
    entered. *)
Theorem failed_callback_is_reported_in_the_form :
  forall (W : Type) (onSubmit : ReportData.t -> W -> completion unit * W)
         (f : Form) (w w' : W) (la lo : number) (e : thrown),
    requiredFieldMissing f = false ->
    latitude f = Some la ->
    longitude f = Some lo ->
    invalidCoordinates (Some la) (Some lo) = false ->
    onSubmit (reportDataOf f la lo) w = (Abrupt e, w') ->
    let r := handleSubmit onSubmit (f, w) in
    let f' := fst (state r) in
    result r = Normal tt
    /\ trace r = [Console lvl_error (lit "Submission failed:")]
    /\ formError f' =
         Some (lit "Failed to submit: " ++
               match e with
               | ErrorObject m => m
               | OtherObject _ => lit "Unknown error"
               end)
    /\ isSubmitting f' = false
    /\ pollutionType f' = pollutionType f
    /\ description f' = description f
    /\ latitude f' = latitude f
    /\ longitude f' = longitude f
    /\ imageFile f' = imageFile f.
Proof.
  intros W onSubmit f w w' la lo e Hreq Hla Hlo Hok Hcb r f'. subst f' r.
  rewrite (handleSubmit_accepted onSubmit f w la lo Hreq Hla Hlo Hok), Hcb.
  cbn. repeat split.
Qed.

Lemma failed_callback_is_reported_in_the_form_witness :
  let f := {| pollutionType := lit "Sewage Leak";
              description := lit " x ";
              latitude := Some 27.5%float;
              longitude := Some 85.25%float;
              imageFile := None;
              isSubmitting := false;
              locationStatus := [];
              formError := None |} in
  let failing := fun (_ : ReportData.t) (n : nat) =>
                   (@Abrupt unit (ErrorObject (lit "offline")), S n) in
  formError (fst (state (handleSubmit failing (f, 0)))) =
    Some (lit "Failed to submit: offline").
Proof.
  intros f failing.
  destruct (failed_callback_is_reported_in_the_form nat failing f 0 1
              27.5%float 85.25%float (ErrorObject (lit "offline")))
    as (_ & _ & Herr & _);
    [reflexivity | reflexivity | reflexivity | reflexivity | reflexivity |].
  exact Herr.
Defined.

(** X4.  [handleSubmit] never throws and never touches what was entered:
    on every path, whether it rejects, the callback completes or the
    callback throws, pollution type, description, coordinates and image file
    come out as they went in. *)
Theorem submit_never_throws_nor_edits :
  forall (W : Type) (onSubmit : ReportData.t -> W -> completion unit * W)
         (f : Form) (w : W),
    let r := handleSubmit onSubmit (f, w) in
    let f' := fst (state r) in
    result r = Normal tt
    /\ pollutionType f' = pollutionType f
    /\ description f' = description f
    /\ latitude f' = latitude f
    /\ longitude f' = longitude f
    /\ imageFile f' = imageFile f.
Proof.
  intros W onSubmit f w r f'. subst f' r.
  destruct (handleSubmit_cases onSubmit f w)
    as [(msg & _ & ->) | (la & lo & Hreq & Hla & Hlo & Hok)].
  - cbn. repeat split.
  - rewrite (handleSubmit_accepted onSubmit f w la lo Hreq Hla Hlo Hok).
    destruct (onSubmit _ w) as [[u|e] w']; cbn; repeat split.
Qed.

(** *** [getCurrentLocation] *)

(** [getCurrentLocation] leaves pollution type, description and image file
    alone and does not reach outside the form. *)
Lemma getCurrentLocation_keeps {W} (toFixed : number -> N -> jsstring)
      (browser : bool) (geo : option Geolocation.t) (f : Form) (w : W) :
  let r := getCurrentLocation toFixed browser geo (f, w) in
  pollutionType (fst (state r)) = pollutionType f
  /\ description (fst (state r)) = description f
  /\ imageFile (fst (state r)) = imageFile f
  /\ snd (state r) = w.
Proof.
  unfold getCurrentLocation, read, assign, gets, modify, bind, emit.
  destruct browser, geo as [g|]; cbn; auto.
  destruct (Geolocation.getCurrentPosition g positionOptions); cbn; auto.
Qed.

(** X5.  When the position request resolves, the form takes the resolved
    latitude and longitude in place of whatever was entered, shows them to
    five decimals, and clears the form error; everything else stays.  If the
    text fields are filled in and the resolved pair is in range, a submit
    right after hands exactly that pair to the callback. *)
Theorem resolved_location_is_what_gets_submitted :
  forall (W : Type) (onSubmit : ReportData.t -> W -> completion unit * W)
         (toFixed : number -> N -> jsstring) (g : Geolocation.t)
         (coords : Geolocation.GeolocationCoordinates) (f : Form) (w : W),
    Geolocation.getCurrentPosition g positionOptions = Geolocation.resolve coords ->
    let lat := Geolocation.latitude coords in
    let lon := Geolocation.longitude coords in
    let r := getCurrentLocation toFixed true (Some g) (f, w) in
    let f1 := fst (state r) in
    latitude f1 = Some lat
    /\ longitude f1 = Some lon
    /\ locationStatus f1 = lit "Location: " ++ toFixed lat 5%N ++ lit ", " ++ toFixed lon 5%N
    /\ formError f1 = None
    /\ pollutionType f1 = pollutionType f
    /\ description f1 = description f
    /\ imageFile f1 = imageFile f
    /\ snd (state r) = w
    /\ (requiredFieldMissing f = false ->
        invalidCoordinates (Some lat) (Some lon) = false ->
        snd (state (handleSubmit onSubmit (f1, w))) =
        snd (onSubmit {| ReportData.pollutionType := pollutionType f;
                         ReportData.description := trim (description f);
                         ReportData.latitude := lat;
                         ReportData.longitude := lon;
                         ReportData.imageFile := imageFile f |} w)).
Proof.
  intros W onSubmit toFixed g coords f w Hres lat lon r f1.
  assert (Hr : r = (Normal tt,
                    (set_locationStatus
                       (lit "Location: " ++ toFixed lat 5%N ++ lit ", " ++ toFixed lon 5%N)
                       (set_longitude (Some lon) (set_latitude (Some lat)
                          (set_formError None f))), w),
                    [Invoke (GetCurrentPosition positionOptions)])).
  { subst r. unfold getCurrentLocation, read, assign, gets, modify, bind, emit.
    cbn. rewrite Hres. reflexivity. }
  subst f1. rewrite Hr. cbn [state fst snd].
  repeat split.
  intros Hreq Hok.
  rewrite (handleSubmit_accepted onSubmit _ w lat lon);
    [|exact Hreq | reflexivity | reflexivity | exact Hok].
  unfold reportDataOf. cbn.
  destruct (onSubmit _ w) as [[u|e] w']; reflexivity.
Qed.

Lemma resolved_location_is_what_gets_submitted_witness :
  let f := {| pollutionType := lit "Air Pollution";
              description := lit "smoke";
              latitude := Some 95%float;
              longitude := None;
              imageFile := None;
              isSubmitting := false;
              locationStatus := [];
              formError := Some invalidLocation |} in
  let g := {| Geolocation.getCurrentPosition :=
                fun _ => Geolocation.resolve
                           {| Geolocation.latitude := 27.5%float;
                              Geolocation.longitude := 85.25%float |} |} in
  let f1 := fst (state (getCurrentLocation (W := unit) (fun _ _ => []) true (Some g) (f, tt))) in
  latitude f1 = Some 27.5%float /\ longitude f1 = Some 85.25%float /\ formError f1 = None.
Proof.
  intros f g f1.
  destruct (resolved_location_is_what_gets_submitted unit
              (fun _ w => (Normal tt, w)) (fun _ _ => []) g
              {| Geolocation.latitude := 27.5%float;
                 Geolocation.longitude := 85.25%float |} f tt)
    as (Hla & Hlo & _ & Herr & _); [reflexivity|].
  repeat split; assumption.
Defined.

(** X6.  After a position request that was rejected, a submit is refused
    whatever the rest of the form holds: the callback is not run and the form
    shows one of the two validation messages, until coordinates are supplied
    some other way. *)
Theorem rejected_location_blocks_submit :
  forall (W : Type) (onSubmit : ReportData.t -> W -> completion unit * W)
         (toFixed : number -> N -> jsstring) (g : Geolocation.t)
         (err : Geolocation.GeolocationPositionError) (f : Form) (w : W),
    Geolocation.getCurrentPosition g positionOptions = Geolocation.reject err ->
    let f1 := fst (state (getCurrentLocation toFixed true (Some g) (f, w))) in
    let r := handleSubmit onSubmit (f1, w) in
    result r = Normal tt
    /\ snd (state r) = w
    /\ trace r = []
    /\ formError (fst (state r)) =
         Some (if requiredFieldMissing f then requiredMissing else invalidLocation).
Proof.
  intros W onSubmit toFixed g err f w Hrej f1 r.
  assert (Hf1 : f1 = set_longitude None (set_latitude None
                       (set_locationStatus (locationErrorStatus err)
                          (set_formError None f)))).
  { subst f1. unfold getCurrentLocation, read, assign, gets, modify, bind, emit.
    cbn. rewrite Hrej. reflexivity. }
  subst r. rewrite Hf1.
  destruct (requiredFieldMissing f) eqn:Hreq.
  - rewrite ReportFormValidation.handleSubmit_required_missing; [|exact Hreq].
    cbn. repeat split.
  - rewrite ReportFormValidation.handleSubmit_invalid_location;
      [|exact Hreq | reflexivity].
    cbn. repeat split.
Qed.

Lemma rejected_location_blocks_submit_witness :
  let f := {| pollutionType := lit "Air Pollution";
              description := lit "smoke";
              latitude := Some 27.5%float;
              longitude := Some 85.25%float;
              imageFile := None;
              isSubmitting := false;
              locationStatus := [];
              formError := None |} in
  let g := {| Geolocation.getCurrentPosition :=
                fun _ => Geolocation.reject {| Geolocation.code := 1 |} |} in
  let count := fun (_ : ReportData.t) (n : nat) => (Normal tt, S n) in
  let f1 := fst (state (getCurrentLocation (fun _ _ => []) true (Some g) (f, 0))) in
  snd (state (handleSubmit count (f1, 0))) = 0
  /\ formError (fst (state (handleSubmit count (f1, 0)))) = Some invalidLocation.
Proof.
  intros f g count f1.
  destruct (rejected_location_blocks_submit nat count (fun _ _ => []) g
              {| Geolocation.code := 1 |} f 0)
    as (_ & Hw & _ & Herr); [reflexivity|].
  split; [exact Hw | exact Herr].
Defined.

(** *** [handleFileSelect] *)

(** X26.  Selecting something that is not an image (a file of another
    media type, or no file at all) shows "Please select a valid image file."
    and drops any image selected before; it does not block the form: a
    submit right after, on a form that passes validation, runs the callback
    with no image file. *)
Theorem rejected_file_is_dropped_not_submitted :
  forall (W : Type) (onSubmit : ReportData.t -> W -> completion unit * W)
         (file : option File) (f : Form) (w : W) (la lo : number),
    match file with
    | Some x => startsWith (lit "image/") (file_type x)
    | None => false
    end = false ->
    requiredFieldMissing f = false ->
    latitude f = Some la ->
    longitude f = Some lo ->
    invalidCoordinates (Some la) (Some lo) = false ->
    let r := handleFileSelect file (f, w) in
    let f1 := fst (state r) in
    result r = Normal tt
    /\ trace r = []
    /\ snd (state r) = w
    /\ formError f1 = Some (lit "Please select a valid image file.")
    /\ imageFile f1 = None
    /\ snd (state (handleSubmit onSubmit (f1, w))) =
       snd (onSubmit {| ReportData.pollutionType := pollutionType f;
                        ReportData.description := trim (description f);
                        ReportData.latitude := la;
                        ReportData.longitude := lo;
                        ReportData.imageFile := None |} w).
Proof.
  intros W onSubmit file f w la lo Hbad Hreq Hla Hlo Hok r f1.
  assert (Hr : r = (Normal tt,
                    (set_imageFile None
                       (set_formError (Some (lit "Please select a valid image file.")) f),
                     w), [])).
  { subst r. unfold handleFileSelect, assign, modify, bind.
    destruct file as [x|]; [rewrite Hbad|]; reflexivity. }
  subst f1. rewrite Hr. cbn [result trace state fst snd].
  repeat split.
  rewrite (handleSubmit_accepted onSubmit _ w la lo);
    [|exact Hreq | exact Hla | exact Hlo | exact Hok].
  unfold reportDataOf. cbn.
  destruct (onSubmit _ w) as [[u|e] w']; reflexivity.
Qed.

Lemma rejected_file_is_dropped_not_submitted_witness :
  let f := {| pollutionType := lit "Sewage Leak";
              description := lit "x";
              latitude := Some 27.5%float;
              longitude := Some 85.25%float;
              imageFile := Some {| file_name := lit "drain.jpg";
                                   file_type := lit "image/jpeg" |};
              isSubmitting := false;
              locationStatus := [];
              formError := None |} in
  let pdf := Some {| file_name := lit "notes.pdf"; file_type := lit "application/pdf" |} in
  let keep := fun (d : ReportData.t) (_ : option (option File)) =>
                (Normal tt, Some (ReportData.imageFile d)) in
  let nothing : option (option File) := None in
  let f1 := fst (state (handleFileSelect pdf (f, nothing))) in
  imageFile f1 = None
  /\ snd (state (handleSubmit keep (f1, nothing))) = Some None.
Proof.
  intros f pdf keep nothing f1.
  destruct (rejected_file_is_dropped_not_submitted _ keep pdf f nothing
              27.5%float 85.25%float)
    as (_ & _ & _ & _ & Himg & Hgiven);
    [reflexivity | reflexivity | reflexivity | reflexivity | reflexivity |].
  split; [exact Himg | exact Hgiven].
Defined.

End FormBehaviour.

(* ------------------------------------------------------------------ *)
(** * ReportForm: any sequence of user actions *)
(* ------------------------------------------------------------------ *)

Module FormSessions.
Import ReportForm FormSession.

Lemma reportDataOf_wellFormed (f : Form) (la lo : number) :
  In (pollutionType f) pollutionTypes ->
  imageTyped (imageFile f) ->
  requiredFieldMissing f = false ->
  invalidCoordinates (Some la) (Some lo) = false ->
  wellFormed (reportDataOf f la lo).
Proof.
  intros Htype Himg Hreq Hok. unfold wellFormed, reportDataOf. cbn.
  apply FormBehaviour.requiredFieldMissing_false in Hreq as [_ Hd].
  repeat split; try assumption.
  - intros Hnil. apply FormBehaviour.trim_nil_blank in Hnil. congruence.
  - apply FormBehaviour.trim_idempotent.
Qed.

(** Every action keeps the form sound and adds only well-formed reports. *)
Lemma perform_keeps_sound (outcome : ReportData.t -> completion unit)
      (toFixed : number -> N -> jsstring) (a : action)
      (st : Form * list ReportData.t) :
  sound st -> sound (state (perform (recording outcome) toFixed a st)).
Proof.
  destruct st as [f seen]. intros (Htype & Himg & Hseen).
  destruct a as [index|text|value|value|browser geo|file|]; unfold perform.
  - destruct (nth_error pollutionTypes index) as [type|] eqn:Hnth.
    + apply nth_error_In in Hnth. now repeat split.
    + now repeat split.
  - now repeat split.
  - now repeat split.
  - now repeat split.
  - destruct (FormBehaviour.getCurrentLocation_keeps toFixed browser geo f seen)
      as (Hp & _ & Hi & Hw).
    unfold sound. now rewrite Hp, Hi, Hw.
  - unfold handleFileSelect.
    destruct file as [x|]; [|now repeat split].
    destruct (startsWith (lit "image/") (file_type x)) eqn:Hx; now repeat split.
  - destruct (FormBehaviour.handleSubmit_cases (recording outcome) f seen)
      as [(msg & _ & ->) | (la & lo & Hreq & Hla & Hlo & Hok)].
    + now repeat split.
    + rewrite (FormBehaviour.handleSubmit_accepted (recording outcome) f seen la lo
                 Hreq Hla Hlo Hok).
      unfold recording.
      assert (Hall : Forall wellFormed (seen ++ [reportDataOf f la lo])).
      { apply Forall_app. split; [assumption|].
        constructor; [|constructor].
        now apply reportDataOf_wellFormed. }
      destruct (outcome (reportDataOf f la lo)) as [u|e]; now repeat split.
Qed.

(** X7.  Start from the form as declared and let the user do anything, in
    any order and any number of times: choose a type from the list, type a
    description, type or clear coordinates, ask for the current location,
    select files, submit.  Then every report the callback is ever given has
    a pollution type from the list, a non-empty description without
    surrounding white space, coordinates that are present, not NaN and in
    range, and an image file, if any, of an image media type; this holds
    whether the callback completes or throws. *)
Theorem every_report_handed_over_is_well_formed :
  forall (outcome : ReportData.t -> completion unit)
         (toFixed : number -> N -> jsstring) (actions : list action),
    Forall wellFormed
      (snd (state (session (recording outcome) toFixed actions (initial, [])))).
Proof.
  intros outcome toFixed actions.
  assert (Hsound : sound (state (session (recording outcome) toFixed actions (initial, [])))).
  { unfold session. apply Loops.forEach_keeps.
    - intros a s. apply perform_keeps_sound.
    - repeat split; [now left | constructor]. }
  apply Hsound.
Qed.

End FormSessions.

(* ------------------------------------------------------------------ *)
(** * ReportForm: the image preview *)
(* ------------------------------------------------------------------ *)

Module PreviewUrls.
Import ImagePreview.

(** One run of the effect, on a settled component. *)
Lemma run_settled (file : option File) (s : State) :
  settled s ->
  result (run file s) = Normal tt
  /\ settled (state (run file s))
  /\ created (state (run file s)) =
       (created s + match file with Some _ => 1 | None => 0 end)%N.
Proof.
  destruct s as [pv cl urls n]. unfold settled, shown. cbn.
  intros (Hurls & [Hcl | [Hcl Hpv]]); subst.
  - destruct pv as [u|], file as [x|];
      unfold run, effect, runCleanup, URL_createObjectURL, URL_revokeObjectURL,
        bind, gets, modify, emit, ret; cbn;
      try (destruct (N.eq_dec u u); [|congruence]);
      rewrite ?N.add_0_r, ?N.add_1_r; auto.
  - destruct file as [x|];
      unfold run, effect, runCleanup, URL_createObjectURL, URL_revokeObjectURL,
        bind, gets, modify, emit, ret; cbn;
      rewrite ?N.add_0_r, ?N.add_1_r; auto.
Qed.

Lemma runs_settled (selections : list (option File)) :
  forall s,
    settled s ->
    settled (state (forEach run selections s))
    /\ created (state (forEach run selections s)) = (created s + filesIn selections)%N.
Proof.
  induction selections as [|file rest IH]; intros s Hs.
  - cbn. now rewrite N.add_0_r.
  - destruct (run_settled file s Hs) as (Hres & Hnext & Hcount).
    simpl forEach. unfold bind.
    destruct (run file s) as [[[u|e] s1] t1]; [|discriminate].
    cbn in Hnext, Hcount.
    destruct (IH s1 Hnext) as (Hfinal & Hcreated).
    destruct (forEach run rest s1) as [[r s2] t2]. cbn in *.
    split; [assumption|].
    rewrite Hcreated, Hcount.
    destruct file; cbn; [rewrite N.add_1_r, N.add_succ_r, N.add_succ_l|rewrite N.add_0_r];
      reflexivity.
Qed.

(** X8.  However often the image selection changes, the preview effect
    keeps at most one object URL alive, namely the one the [<img>] shows;
    every run with a file creates exactly one URL after revoking the one of
    the run before; and after teardown no object URL is left alive. *)
Theorem preview_urls_are_released :
  forall (selections : list (option File)),
    let s := state (forEach run selections initial) in
    objectUrls s = shown s
    /\ created s = filesIn selections
    /\ result (teardown s) = Normal tt
    /\ objectUrls (state (teardown s)) = []
    /\ cleanup (state (teardown s)) = None.
Proof.
  intros selections s.
  assert (Hinit : settled initial) by (split; [reflexivity | now right]).
  destruct (runs_settled selections initial Hinit) as (Hs & Hcreated).
  fold s in Hs, Hcreated.
  destruct Hs as (Hurls & Hcl). cbn in Hcreated.
  split; [exact Hurls|]. split; [exact Hcreated|].
  destruct s as [pv cl urls n]. unfold shown in Hurls. cbn in Hurls, Hcl.
  destruct Hcl as [Hcl | [Hcl Hpv]]; subst.
  - destruct pv as [u|];
      unfold teardown, runCleanup, URL_revokeObjectURL, bind, gets, modify, emit, ret;
      cbn; try (destruct (N.eq_dec u u); [|congruence]); auto.
  - unfold teardown, bind, gets, modify, ret. cbn. auto.
Qed.

End PreviewUrls.

(* ------------------------------------------------------------------ *)
(** * +page: outcomes of the pipeline *)
(* ------------------------------------------------------------------ *)

Module PageOutcomes.
Import Page PageView.

Ltac run_pipeline :=
  unfold handleReportSubmit, uploadAndInsert, read, assign, gets, modify, bind,
    tryFinally, tryCatch, emit, console, ret, throw; cbn.

(** The pipeline always completes. *)
Lemma handleReportSubmit_completes (now : N) (randomSuffix : jsstring)
      (reportDetails : ReportData.t) (s : State) :
  result (handleReportSubmit now randomSuffix reportDetails s) = Normal tt.
Proof.
  run_pipeline. PagePipeline.run_all; reflexivity.
Qed.

(** The run in which upload and insert both succeed. *)
Lemma handleReportSubmit_inserts (now : N) (randomSuffix : jsstring)
      (reportDetails : ReportData.t) (s : State) (client : Supabase.Client) (file : File) :
  supabase s = Some client ->
  ReportData.imageFile reportDetails = Some file ->
  let path := uploadPath now randomSuffix file in
  let row := reportToInsert reportDetails (uploadedImageUrl client path) in
  Supabase.storage_upload client bucket path file = None ->
  Supabase.insert client (lit "pollution_reports") row = None ->
  let r := handleReportSubmit now randomSuffix reportDetails s in
  calls (trace r) =
    [StorageUpload bucket path file; StorageGetPublicUrl bucket path;
     TableInsert (lit "pollution_reports") row]
    ++ (if mapDisplayComponent s then [RefreshData] else [])
    ++ [SetTimeout ClearSubmissionMessage 7000]
  /\ submissionMessage (state r) = Some (lit "Report submitted successfully!")
  /\ isProcessing (state r) = false.
Proof.
  intros Hsb Himg path row Hup Hins r. subst r.
  unfold uploadPath in path. unfold reportToInsert, uploadedImageUrl in row.
  subst row path.
  run_pipeline. rewrite Hsb. cbn. rewrite Himg. cbn. rewrite Hup. cbn.
  destruct (Supabase.storage_getPublicUrl client bucket _) as [urlData|] eqn:Hurl;
    cbn in Hins |- *.
  - destruct (truthy (Supabase.publicUrl urlData)) eqn:Ht; cbn in Hins |- *;
      rewrite Hins; cbn; destruct (mapDisplayComponent s); cbn; repeat split.
  - rewrite Hins; cbn; destruct (mapDisplayComponent s); cbn; repeat split.
Qed.

(** X9.  With a client in place and an image attached, when the upload
    and the insert both succeed the pipeline makes its calls in this order:
    upload to the bucket under the generated path, public URL of the same
    path, insert of a row that carries the report's coordinates, type and
    description unchanged and the public URL (null when there is none), the
    map refresh if the map component is bound, the timer.  It ends with the
    success message and is no longer processing. *)
Theorem successful_run_uploads_then_inserts :
  forall (now : N) (randomSuffix : jsstring) (reportDetails : ReportData.t)
         (s : State) (client : Supabase.Client) (file : File),
    supabase s = Some client ->
    ReportData.imageFile reportDetails = Some file ->
    let path := uploadPath now randomSuffix file in
    let row := reportToInsert reportDetails (uploadedImageUrl client path) in
    Supabase.storage_upload client bucket path file = None ->
    Supabase.insert client (lit "pollution_reports") row = None ->
    let r := handleReportSubmit now randomSuffix reportDetails s in
    result r = Normal tt
    /\ calls (trace r) =
         [StorageUpload bucket path file; StorageGetPublicUrl bucket path;
          TableInsert (lit "pollution_reports") row]
         ++ (if mapDisplayComponent s then [RefreshData] else [])
         ++ [SetTimeout ClearSubmissionMessage 7000]
    /\ submissionMessage (state r) = Some (lit "Report submitted successfully!")
    /\ isProcessing (state r) = false.
Proof.
  intros now randomSuffix d s client file Hsb Himg path row Hup Hins r.
  split; [apply handleReportSubmit_completes|].
  exact (handleReportSubmit_inserts now randomSuffix d s client file Hsb Himg Hup Hins).
Qed.

Lemma successful_run_uploads_then_inserts_witness :
  let client := {| Supabase.storage_upload := fun _ _ _ => None;
                   Supabase.storage_getPublicUrl :=
                     fun _ path => Some {| Supabase.publicUrl := lit "https://cdn/" ++ path |};
                   Supabase.insert := fun _ _ => None;
                   Supabase.select := fun _ =>
                     {| Supabase.data := None; Supabase.error := None |} |} in
  let file := {| file_name := lit "drain.v2.jpg"; file_type := lit "image/jpeg" |} in
  let d := {| ReportData.pollutionType := lit "Sewage Leak";
              ReportData.description := lit "x";
              ReportData.latitude := 27.5%float;
              ReportData.longitude := 85.25%float;
              ReportData.imageFile := Some file |} in
  let r := handleReportSubmit 1700000000000 (lit "k3x9qz") d
             (set_supabase (Some client) initial) in
  calls (trace r) =
    [StorageUpload bucket (lit "public/1700000000000_k3x9qz.jpg") file;
     StorageGetPublicUrl bucket (lit "public/1700000000000_k3x9qz.jpg");
     TableInsert (lit "pollution_reports")
       {| Supabase.row_latitude := 27.5%float;
          Supabase.row_longitude := 85.25%float;
          Supabase.row_pollution_type := lit "Sewage Leak";
          Supabase.row_description := lit "x";
          Supabase.row_image_url :=
            Some (lit "https://cdn/public/1700000000000_k3x9qz.jpg") |};
     SetTimeout ClearSubmissionMessage 7000].
Proof.
  intros client file d r.
  destruct (successful_run_uploads_then_inserts 1700000000000 (lit "k3x9qz") d
              (set_supabase (Some client) initial) client file)
    as (_ & Hcalls & _); [reflexivity | reflexivity | reflexivity | reflexivity |].
  exact Hcalls.
Defined.

(** X10.  When the storage refuses the upload, the pipeline stops there:
    no public URL is asked for, nothing is inserted, the map is not
    refreshed.  The status message is "Error: Image upload failed: " followed
    by the storage's message, and the timer is still set. *)
Theorem refused_upload_stops_the_pipeline :
  forall (now : N) (randomSuffix : jsstring) (reportDetails : ReportData.t)
         (s : State) (client : Supabase.Client) (file : File)
         (uploadError : Supabase.ResponseError),
    supabase s = Some client ->
    ReportData.imageFile reportDetails = Some file ->
    Supabase.storage_upload client bucket (uploadPath now randomSuffix file) file =
      Some uploadError ->
    let r := handleReportSubmit now randomSuffix reportDetails s in
    result r = Normal tt
    /\ calls (trace r) =
         [StorageUpload bucket (uploadPath now randomSuffix file) file;
          SetTimeout ClearSubmissionMessage 7000]
    /\ submissionMessage (state r) =
         Some (lit "Error: Image upload failed: " ++ Supabase.message uploadError)
    /\ isProcessing (state r) = false.
Proof.
  intros now randomSuffix d s client file uploadError Hsb Himg Hup r. subst r.
  unfold uploadPath in Hup.
  run_pipeline. rewrite Hsb. cbn. rewrite Himg. cbn. rewrite Hup. cbn.
  repeat split.
Qed.

Lemma refused_upload_stops_the_pipeline_witness :
  let refusal := {| Supabase.message := lit "Payload too large" |} in
  let client := {| Supabase.storage_upload := fun _ _ _ => Some refusal;
                   Supabase.storage_getPublicUrl := fun _ _ => None;
                   Supabase.insert := fun _ _ => None;
                   Supabase.select := fun _ =>
                     {| Supabase.data := None; Supabase.error := None |} |} in
  let file := {| file_name := lit "drain"; file_type := lit "image/jpeg" |} in
  let d := {| ReportData.pollutionType := lit "Sewage Leak";
              ReportData.description := lit "x";
              ReportData.latitude := 27.5%float;
              ReportData.longitude := 85.25%float;
              ReportData.imageFile := Some file |} in
  let r := handleReportSubmit 1700000000000 (lit "k3x9qz") d
             (set_supabase (Some client) initial) in
  calls (trace r) =
    [StorageUpload bucket (lit "public/1700000000000_k3x9qz.drain") file;
     SetTimeout ClearSubmissionMessage 7000].
Proof.
  intros refusal client file d r.
  destruct (refused_upload_stops_the_pipeline 1700000000000 (lit "k3x9qz") d
              (set_supabase (Some client) initial) client file refusal)
    as (_ & Hcalls & _); [reflexivity | reflexivity | reflexivity |].
  exact Hcalls.
Defined.

(** X11.  When the upload succeeds and the insert is refused, the map is
    not refreshed; the status message is "Error: Failed to save report: "
    followed by the backend's message.  The uploaded image stays in the
    bucket: nothing is called to remove it. *)
Theorem refused_insert_skips_the_refresh :
  forall (now : N) (randomSuffix : jsstring) (reportDetails : ReportData.t)
         (s : State) (client : Supabase.Client) (file : File)
         (insertError : Supabase.ResponseError),
    supabase s = Some client ->
    ReportData.imageFile reportDetails = Some file ->
    let path := uploadPath now randomSuffix file in
    let row := reportToInsert reportDetails (uploadedImageUrl client path) in
    Supabase.storage_upload client bucket path file = None ->
    Supabase.insert client (lit "pollution_reports") row = Some insertError ->
    let r := handleReportSubmit now randomSuffix reportDetails s in
    result r = Normal tt
    /\ calls (trace r) =
         [StorageUpload bucket path file; StorageGetPublicUrl bucket path;
          TableInsert (lit "pollution_reports") row;
          SetTimeout ClearSubmissionMessage 7000]
    /\ submissionMessage (state r) =
         Some (lit "Error: Failed to save report: " ++ Supabase.message insertError)
    /\ isProcessing (state r) = false.
Proof.
  intros now randomSuffix d s client file insertError Hsb Himg path row Hup Hins r.
  subst r. unfold uploadPath in path. unfold reportToInsert, uploadedImageUrl in row.
  subst row path.
  run_pipeline. rewrite Hsb. cbn. rewrite Himg. cbn. rewrite Hup. cbn.
  destruct (Supabase.storage_getPublicUrl client bucket _) as [urlData|] eqn:Hurl;
    cbn in Hins |- *.
  - destruct (truthy (Supabase.publicUrl urlData)) eqn:Ht; cbn in Hins |- *;
      rewrite Hins; cbn; repeat split.
  - rewrite Hins; cbn; repeat split.
Qed.

Lemma refused_insert_skips_the_refresh_witness :
  let refusal := {| Supabase.message := lit "new row violates row-level security policy" |} in
  let client := {| Supabase.storage_upload := fun _ _ _ => None;
                   Supabase.storage_getPublicUrl := fun _ _ => None;
                   Supabase.insert := fun _ _ => Some refusal;
                   Supabase.select := fun _ =>
                     {| Supabase.data := None; Supabase.error := None |} |} in
  let file := {| file_name := lit "drain.jpg"; file_type := lit "image/jpeg" |} in
  let d := {| ReportData.pollutionType := lit "Sewage Leak";
              ReportData.description := lit "x";
              ReportData.latitude := 27.5%float;
              ReportData.longitude := 85.25%float;
              ReportData.imageFile := Some file |} in
  let s := {| submissionMessage := None; isProcessing := false;
              supabase := Some client; mapDisplayComponent := true |} in
  let r := handleReportSubmit 1700000000000 (lit "k3x9qz") d s in
  existsb isRefresh (calls (trace r)) = false
  /\ submissionMessage (state r) =
       Some (lit "Error: Failed to save report: new row violates row-level security policy").
Proof.
  intros refusal client file d s r.
  destruct (refused_insert_skips_the_refresh 1700000000000 (lit "k3x9qz") d s client file refusal)
    as (_ & Hcalls & Hmsg & _); [reflexivity | reflexivity | reflexivity | reflexivity |].
  subst r. split; [now rewrite Hcalls | exact Hmsg].
Defined.

(** X12.  Every run of the pipeline, on any page state and against any
    client, completes without throwing and ends not processing; its calls
    come in pipeline order with none repeated (upload, public URL, insert,
    refresh, timer), so nothing is inserted before the upload and the map
    is refreshed only after the insert; and a run that ends in an error
    message never asked the map to refresh. *)
Theorem pipeline_is_ordered_and_contained :
  forall (now : N) (randomSuffix : jsstring) (reportDetails : ReportData.t) (s : State),
    let r := handleReportSubmit now randomSuffix reportDetails s in
    result r = Normal tt
    /\ isProcessing (state r) = false
    /\ increasing (map rank (calls (trace r))) = true
    /\ (existsb isRefresh (calls (trace r)) && isErrorMessage (state r))%bool = false.
Proof.
  intros now randomSuffix d s r. subst r.
  run_pipeline. PagePipeline.run_all; repeat split.
Qed.

(** X13.  The status line after a run: it is there, it is never blue; it
    is red exactly when the message is one of the pipeline's error reports;
    and unless it is such an error report it is green exactly when a row was
    inserted, so a run without an image ends on an uncoloured
    "Processing report...". *)
Theorem status_line_after_a_run :
  forall (now : N) (randomSuffix : jsstring) (reportDetails : ReportData.t) (s : State),
    let r := handleReportSubmit now randomSuffix reportDetails s in
    exists c,
      statusLine (state r) = Some c
      /\ blue c = false
      /\ red c = isErrorMessage (state r)
      /\ (isErrorMessage (state r) = true
          \/ green c = existsb isInsert (calls (trace r))).
Proof.
  intros now randomSuffix d s r. subst r.
  run_pipeline. PagePipeline.run_all;
    first
      [ solve [ match goal with
                | H : truthy _ = false |- _ => cbv in H; discriminate H
                end ]
      | eexists; split; [reflexivity|]; split; [reflexivity|];
        split; [reflexivity|];
        first [left; reflexivity | right; reflexivity] ].
Qed.

(** *** The upload path *)



(** *** [onMount] *)

(** X15.  When the backend URL or the key is missing from the
    configuration, [onMount] creates no client and shows the configuration
    error; a report submitted to that page makes no call at all (no upload,
    no insert, no refresh, no timer) and ends on "Error: Backend connection
    not ready. Please refresh", not processing. *)
Theorem missing_configuration_blocks_every_call :
  forall (url key : jsstring) (browser : bool)
         (createClient : jsstring -> jsstring -> Supabase.Client)
         (now : N) (randomSuffix : jsstring) (reportDetails : ReportData.t),
    (truthy url && truthy key)%bool = false ->
    let s0 := state (onMount url key browser createClient initial) in
    let r := handleReportSubmit now randomSuffix reportDetails s0 in
    supabase s0 = None
    /\ submissionMessage s0 = Some (lit "Configuration error: Cannot connect to backend")
    /\ result r = Normal tt
    /\ calls (trace r) = []
    /\ submissionMessage (state r) =
         Some (lit "Error: Backend connection not ready. Please refresh")
    /\ isProcessing (state r) = false.
Proof.
  intros url key browser createClient now randomSuffix d Hcfg s0 r.
  assert (Hs0 : s0 = set_submissionMessage
                       (Some (lit "Configuration error: Cannot connect to backend"))
                       initial).
  { subst s0. unfold onMount.
    replace (negb (truthy url) || negb (truthy key))%bool with true
      by (rewrite <- negb_andb, Hcfg; reflexivity).
    reflexivity. }
  subst r. rewrite Hs0. repeat split.
Qed.

Lemma missing_configuration_blocks_every_call_witness :
  let d := {| ReportData.pollutionType := lit "Sewage Leak";
              ReportData.description := lit "x";
              ReportData.latitude := 27.5%float;
              ReportData.longitude := 85.25%float;
              ReportData.imageFile :=
                Some {| file_name := lit "drain.jpg"; file_type := lit "image/jpeg" |} |} in
  let anyClient := fun (_ _ : jsstring) =>
                     {| Supabase.storage_upload := fun _ _ _ => None;
                        Supabase.storage_getPublicUrl := fun _ _ => None;
                        Supabase.insert := fun _ _ => None;
                        Supabase.select := fun _ =>
                          {| Supabase.data := None; Supabase.error := None |} |} in
  let s0 := state (onMount (lit "https://project.supabase.co") [] true anyClient initial) in
  calls (trace (handleReportSubmit 1700000000000 (lit "k3x9qz") d s0)) = [].
Proof.
  intros d anyClient s0.
  destruct (missing_configuration_blocks_every_call
              (lit "https://project.supabase.co") [] true anyClient
              1700000000000 (lit "k3x9qz") d)
    as (_ & _ & _ & Hcalls & _); [reflexivity|].
  exact Hcalls.
Defined.

End PageOutcomes.

(* ------------------------------------------------------------------ *)
(** * Form and page together *)
(* ------------------------------------------------------------------ *)

Module AppFlow.
Import ReportForm.

(** X16.  With the page's [handleReportSubmit] as the callback, a backend
    failure never reaches the form: whatever the client answers, a form that
    passes validation comes out of [handleSubmit] without a form error and
    with "Report submitted successfully." logged, because the page catches
    every failure itself and only shows it in its own status message. *)
Theorem backend_failures_stay_on_the_page :
  forall (now : N) (randomSuffix : jsstring) (f : Form) (page : App.World)
         (la lo : number),
    requiredFieldMissing f = false ->
    latitude f = Some la ->
    longitude f = Some lo ->
    invalidCoordinates (Some la) (Some lo) = false ->
    let r := App.handleSubmit now randomSuffix (f, page) in
    result r = Normal tt
    /\ formError (fst (state r)) = None
    /\ trace r = [Console lvl_log (lit "Report submitted successfully.")]
    /\ fst (snd (state r)) =
         state (Page.handleReportSubmit now randomSuffix (reportDataOf f la lo) (fst page)).
Proof.
  intros now randomSuffix f page la lo Hreq Hla Hlo Hok r. subst r.
  unfold App.handleSubmit.
  rewrite (FormBehaviour.handleSubmit_accepted _ f page la lo Hreq Hla Hlo Hok).
  unfold App.onSubmit.
  pose proof (PageOutcomes.handleReportSubmit_completes now randomSuffix
                (reportDataOf f la lo) (fst page)) as Hdone.
  destruct (Page.handleReportSubmit now randomSuffix (reportDataOf f la lo) (fst page))
    as [[[u|e] s'] t]; [|discriminate Hdone].
  cbn. repeat split.
Qed.

Lemma backend_failures_stay_on_the_page_witness :
  let client := {| Supabase.storage_upload :=
                     fun _ _ _ => Some {| Supabase.message := lit "Payload too large" |};
                   Supabase.storage_getPublicUrl := fun _ _ => None;
                   Supabase.insert := fun _ _ => None;
                   Supabase.select := fun _ =>
                     {| Supabase.data := None; Supabase.error := None |} |} in
  let f := {| pollutionType := lit "Sewage Leak";
              description := lit " x ";
              latitude := Some 27.5%float;
              longitude := Some 85.25%float;
              imageFile := Some {| file_name := lit "drain.jpg";
                                   file_type := lit "image/jpeg" |};
              isSubmitting := false;
              locationStatus := [];
              formError := None |} in
  let page := (Page.set_supabase (Some client) Page.initial, []) in
  let r := App.handleSubmit 1700000000000 (lit "k3x9qz") (f, page) in
  formError (fst (state r)) = None
  /\ Page.submissionMessage (fst (snd (state r))) =
       Some (lit "Error: Image upload failed: Payload too large").
Proof.
  intros client f page r.
  destruct (backend_failures_stay_on_the_page 1700000000000 (lit "k3x9qz") f page
              27.5%float 85.25%float)
    as (_ & Herr & _ & Hpage); [reflexivity | reflexivity | reflexivity | reflexivity |].
  split; [exact Herr|].
  etransitivity; [exact (f_equal Page.submissionMessage Hpage) | reflexivity].
Defined.

(** X17.  From the form to the table: when a form that passes validation
    and holds an image is submitted to a page whose client accepts the
    upload and the insert, the row inserted into "pollution_reports" carries
    the form's pollution type, its description without surrounding white
    space, its latitude and longitude, and the public URL of the uploaded
    image; the page's earlier calls are kept in front. *)
Theorem what_the_form_holds_is_what_is_inserted :
  forall (now : N) (randomSuffix : jsstring) (f : Form) (page : App.World)
         (la lo : number) (client : Supabase.Client) (file : File),
    requiredFieldMissing f = false ->
    latitude f = Some la ->
    longitude f = Some lo ->
    invalidCoordinates (Some la) (Some lo) = false ->
    imageFile f = Some file ->
    Page.supabase (fst page) = Some client ->
    let path := PageView.uploadPath now randomSuffix file in
    let row :=
      {| Supabase.row_latitude := la;
         Supabase.row_longitude := lo;
         Supabase.row_pollution_type := pollutionType f;
         Supabase.row_description := trim (description f);
         Supabase.row_image_url := PageView.uploadedImageUrl client path |} in
    Supabase.storage_upload client Page.bucket path file = None ->
    Supabase.insert client (lit "pollution_reports") row = None ->
    let r := App.handleSubmit now randomSuffix (f, page) in
    calls (snd (snd (state r))) =
      calls (snd page)
      ++ [Page.StorageUpload Page.bucket path file;
          Page.StorageGetPublicUrl Page.bucket path;
          Page.TableInsert (lit "pollution_reports") row]
      ++ (if Page.mapDisplayComponent (fst page) then [Page.RefreshData] else [])
      ++ [Page.SetTimeout Page.ClearSubmissionMessage 7000].
Proof.
  intros now randomSuffix f page la lo client file Hreq Hla Hlo Hok Himg Hsb
         path row Hup Hins r.
  subst r. unfold App.handleSubmit.
  rewrite (FormBehaviour.handleSubmit_accepted _ f page la lo Hreq Hla Hlo Hok).
  unfold App.onSubmit.
  destruct (PageOutcomes.handleReportSubmit_inserts now randomSuffix
              (reportDataOf f la lo) (fst page) client file Hsb Himg Hup Hins)
    as (Hcalls & _).
  destruct (Page.handleReportSubmit now randomSuffix (reportDataOf f la lo) (fst page))
    as [[[u|e] s'] t]; cbn in Hcalls |- *; now rewrite calls_app, Hcalls.
Qed.

Lemma what_the_form_holds_is_what_is_inserted_witness :
  let client := {| Supabase.storage_upload := fun _ _ _ => None;
                   Supabase.storage_getPublicUrl :=
                     fun _ path => Some {| Supabase.publicUrl := lit "https://cdn/" ++ path |};
                   Supabase.insert := fun _ _ => None;
                   Supabase.select := fun _ =>
                     {| Supabase.data := None; Supabase.error := None |} |} in
  let file := {| file_name := lit "drain.jpg"; file_type := lit "image/jpeg" |} in
  let f := {| pollutionType := lit "Sewage Leak";
              description := lit " x ";
              latitude := Some 27.5%float;
              longitude := Some 85.25%float;
              imageFile := Some file;
              isSubmitting := false;
              locationStatus := [];
              formError := None |} in
  let page := (Page.set_supabase (Some client) Page.initial, []) in
  let r := App.handleSubmit 1700000000000 (lit "k3x9qz") (f, page) in
  calls (snd (snd (state r))) =
    [Page.StorageUpload Page.bucket (lit "public/1700000000000_k3x9qz.jpg") file;
     Page.StorageGetPublicUrl Page.bucket (lit "public/1700000000000_k3x9qz.jpg");
     Page.TableInsert (lit "pollution_reports")
       {| Supabase.row_latitude := 27.5%float;
          Supabase.row_longitude := 85.25%float;
          Supabase.row_pollution_type := lit "Sewage Leak";
          Supabase.row_description := lit "x";
          Supabase.row_image_url :=
            Some (lit "https://cdn/public/1700000000000_k3x9qz.jpg") |};
     Page.SetTimeout Page.ClearSubmissionMessage 7000].
Proof.
  intros client file f page r.
  etransitivity;
    [ apply (what_the_form_holds_is_what_is_inserted 1700000000000 (lit "k3x9qz")
               f page 27.5%float 85.25%float client file); reflexivity
    | reflexivity ].
Defined.

End AppFlow.

(* ------------------------------------------------------------------ *)
(** * MapDisplay: mount, refresh, unmount *)
(* ------------------------------------------------------------------ *)

Module MapLife.
Import Supabase MapDisplay MapLifecycle.

Section Life.
Variable tls : jsstring -> jsstring.

Ltac run_init :=
  unfold initializeMap, read, assign, gets, modify, bind, tryFinally, tryCatch,
    console, throw; cbn.

(** The run of [initializeMap] that builds the map. *)
Lemma initializeMap_builds (s : State) :
  mapInstance s = None ->
  mapContainer s = true ->
  exists t,
    initializeMap true (Normal true) tls s =
      (Normal tt,
       set_isLoading false
         (afterFetch tls
            (set_mapInstance (Some freshMap)
               (set_markersLayer (Some []) (set_L true s)))),
       t)
    /\ calls t = match supabase s with
                 | Some _ => [Select reportsQuery]
                 | None => []
                 end.
Proof.
  destruct s as [sb mc mi ml il me l rs]. cbn. intros -> ->.
  destruct (MapDisplayMarkers.fetchReports_run tls
              {| supabase := sb; mapContainer := true; mapInstance := Some freshMap;
                 markersLayer := Some []; isLoading := il; mapError := me;
                 L := true; reports := rs |}) as (t & Hrun & Ht).
  run_init. unfold Leaflet.LayerGroup in *.
  cbv [set_mapInstance set_markersLayer set_L Leaflet.addMarkersLayer
       Leaflet.addTileLayer] in *. cbn in *.
  change {| Leaflet.center := initialCoords; Leaflet.zoom := initialZoom;
            Leaflet.tileLayers := [tileUrl]; Leaflet.hasMarkersLayer := true |}
    with freshMap.
  rewrite Hrun. eexists. split; [reflexivity|].
  cbn. rewrite !calls_app, Ht. cbn. now rewrite app_nil_r.
Qed.

(** The runs of [initializeMap] that build nothing. *)
Lemma initializeMap_skips (browser : bool) (import_leaflet : completion bool) (s : State) :
  browser = false \/ mapInstance s <> None ->
  exists t,
    initializeMap browser import_leaflet tls s = (Normal tt, set_isLoading false s, t)
    /\ calls t = [].
Proof.
  destruct s as [sb mc mi ml il me l rs]. cbn. intros Hskip.
  destruct browser.
  - destruct mi as [map|]; [|destruct Hskip; [discriminate | congruence]].
    run_init. eexists. split; reflexivity.
  - run_init. eexists. split; reflexivity.
Qed.

Lemma initializeMap_without_container (import_leaflet : completion bool) (s : State) :
  mapInstance s = None ->
  mapContainer s = false ->
  exists t,
    initializeMap true import_leaflet tls s =
      (Normal tt,
       set_isLoading false (set_mapError (Some (lit "Map container failed to load.")) s),
       t)
    /\ calls t = [].
Proof.
  destruct s as [sb mc mi ml il me l rs]. cbn. intros -> ->.
  run_init. eexists. split; reflexivity.
Qed.

(** The text [initializeMap] reports when Leaflet does not load. *)
Lemma initializeMap_fails (import_leaflet : completion bool) (s : State) :
  mapInstance s = None ->
  mapContainer s = true ->
  import_leaflet <> Normal true ->
  exists t,
    initializeMap true import_leaflet tls s =
      (Normal tt,
       set_isLoading false
         (set_markersLayer None
            (set_mapInstance None
               (set_L false
                  (set_mapError
                     (Some (lit "Map initialization failed: " ++
                            match import_leaflet with
                            | Abrupt e => message_of e
                            | Normal _ =>
                                lit "Leaflet library (L) failed to load or is null."
                            end)) s)))),
       t)
    /\ calls t = [].
Proof.
  destruct s as [sb mc mi ml il me l rs]. cbn. intros -> -> Himp.
  destruct import_leaflet as [[|]|e]; [congruence | |];
    run_init; eexists; split; reflexivity.
Qed.

Lemma initializeMap_state_cases (browser : bool) (import_leaflet : completion bool)
      (s : State) :
  exists t,
    initializeMap browser import_leaflet tls s =
      (Normal tt,
       (if browser then
          match mapInstance s, mapContainer s, import_leaflet with
          | Some _, _, _ => set_isLoading false s
          | None, false, _ =>
              set_isLoading false
                (set_mapError (Some (lit "Map container failed to load.")) s)
          | None, true, Normal true =>
              set_isLoading false
                (afterFetch tls
                   (set_mapInstance (Some freshMap)
                      (set_markersLayer (Some []) (set_L true s))))
          | None, true, _ =>
              set_isLoading false
                (set_markersLayer None
                   (set_mapInstance None
                      (set_L false
                         (set_mapError
                            (Some (lit "Map initialization failed: " ++
                                   match import_leaflet with
                                   | Abrupt e => message_of e
                                   | Normal _ =>
                                       lit "Leaflet library (L) failed to load or is null."
                                   end)) s))))
          end
        else set_isLoading false s),
       t).
Proof.
  destruct browser.
  - destruct (mapInstance s) as [map|] eqn:Hmi.
    + destruct (initializeMap_skips true import_leaflet s) as (t & -> & _);
        [right; congruence|]. now exists t.
    + destruct (mapContainer s) eqn:Hmc.
      * destruct import_leaflet as [[|]|e].
        -- destruct (initializeMap_builds s Hmi Hmc) as (t & -> & _). now exists t.
        -- destruct (initializeMap_fails (Normal false) s Hmi Hmc) as (t & -> & _);
             [discriminate|]. now exists t.
        -- destruct (initializeMap_fails (Abrupt e) s Hmi Hmc) as (t & -> & _);
             [discriminate|]. now exists t.
      * destruct (initializeMap_without_container import_leaflet s Hmi Hmc)
          as (t & -> & _). now exists t.
  - destruct (initializeMap_skips false import_leaflet s) as (t & -> & _);
      [now left|]. now exists t.
Qed.

(** *** The invariant *)






End Life.


(** X19.  Mounted in the browser with its container bound and Leaflet
    loading, a component without a map gets one: centred on (27.7172,
    85.324) at zoom 13, with the OpenStreetMap tile layer and the marker
    layer on it.  It is then ready and no longer loading, and when it has a
    client it has sent exactly one select and holds the fetched reports with
    their markers. *)
Theorem initialisation_builds_the_map :
  forall (tls : jsstring -> jsstring) (s : State),
    mapInstance s = None ->
    mapContainer s = true ->
    let r := initializeMap true (Normal true) tls s in
    result r = Normal tt
    /\ ready (state r) = true
    /\ mapInstance (state r) = Some freshMap
    /\ Leaflet.center freshMap = (27.7172, 85.324)%float
    /\ Leaflet.zoom freshMap = 13%N
    /\ isLoading (state r) = false
    /\ (forall client,
          supabase s = Some client ->
          calls (trace r) = [Select reportsQuery]
          /\ reports (state r) = fetched client
          /\ markersLayer (state r) = Some (markersOf tls (fetched client))
          /\ mapError (state r) = fetchError client).
Proof.
  intros tls s Hmi Hmc r. subst r.
  destruct (initializeMap_builds tls s Hmi Hmc) as (t & -> & Ht).
  cbn [result state trace fst snd].
  destruct s as [sb mc mi ml il me l rs]. cbn in Hmi, Hmc, Ht. subst mi mc.
  destruct sb as [client|].
  - do 6 (split; [reflexivity|]).
    intros c Hc. injection Hc as <-. repeat split. exact Ht.
  - do 6 (split; [reflexivity|]).
    intros c Hc. discriminate Hc.
Qed.

Lemma initialisation_builds_the_map_witness :
  let rows :=
    [ {| id := lit "a1"; created_at := lit "2025-05-01T10:00:00Z";
         latitude := Some 27.7%float; longitude := Some 85.3%float;
         pollution_type := Some (lit "Sewage Leak"); description := Some (lit "x");
         image_url := None |} ] in
  let client := {| storage_upload := fun _ _ _ => None;
                   storage_getPublicUrl := fun _ _ => None;
                   insert := fun _ _ => None;
                   select := fun _ => {| data := Some rows; error := None |} |} in
  let r := initializeMap true (Normal true) (fun d => d)
             (set_mapContainer true (initial (Some client))) in
  ready (state r) = true /\ markerPositions (state r) = [(27.7, 85.3)%float].
Proof.
  intros rows client r.
  destruct (initialisation_builds_the_map (fun d => d)
              (set_mapContainer true (initial (Some client))))
    as (_ & Hready & _ & _ & _ & _ & Hfetched); [reflexivity | reflexivity |].
  destruct (Hfetched client) as (_ & _ & Hlayer & _); [reflexivity|].
  split; [exact Hready|].
  unfold markerPositions.
  etransitivity; [exact (f_equal (fun l => match l with
                                           | Some layers => map Leaflet.latlng layers
                                           | None => []
                                           end) Hlayer) | reflexivity].
Defined.

(** X20.  When Leaflet does not load (the import is rejected, or resolves
    without a default export), [initializeMap] does not throw: it leaves the
    component without map, layer and Leaflet, shows "Map initialization
    failed: " with the reason, stops loading and sends nothing; a refresh
    after that only logs its warning. *)
Theorem failed_initialisation_leaves_no_map :
  forall (tls : jsstring -> jsstring) (import_leaflet : completion bool) (s : State),
    mapInstance s = None ->
    mapContainer s = true ->
    import_leaflet <> Normal true ->
    let r := initializeMap true import_leaflet tls s in
    result r = Normal tt
    /\ calls (trace r) = []
    /\ mapInstance (state r) = None
    /\ markersLayer (state r) = None
    /\ L (state r) = false
    /\ isLoading (state r) = false
    /\ mapError (state r) =
         Some (lit "Map initialization failed: " ++
               match import_leaflet with
               | Abrupt e => message_of e
               | Normal _ => lit "Leaflet library (L) failed to load or is null."
               end)
    /\ refreshData tls (state r) =
         (Normal tt, state r,
          [Console lvl_warn (lit "[MapDisplay] refreshData called, but map is not ready.")]).
Proof.
  intros tls import_leaflet s Hmi Hmc Himp r. subst r.
  destruct (initializeMap_fails tls import_leaflet s Hmi Hmc Himp) as (t & -> & Ht).
  cbn [result state trace fst snd].
  destruct s as [sb mc mi ml il me l rs]. repeat split. exact Ht.
Qed.

Lemma failed_initialisation_leaves_no_map_witness :
  let r := initializeMap true (Abrupt (ErrorObject (lit "Failed to fetch dynamically imported module")))
             (fun d => d) (set_mapContainer true (initial None)) in
  mapInstance (state r) = None
  /\ mapError (state r) =
       Some (lit "Map initialization failed: Failed to fetch dynamically imported module").
Proof.
  intros r.
  destruct (failed_initialisation_leaves_no_map (fun d => d)
              (Abrupt (ErrorObject (lit "Failed to fetch dynamically imported module")))
              (set_mapContainer true (initial None)))
    as (_ & _ & Hmi & _ & _ & _ & Herr & _);
    [reflexivity | reflexivity | discriminate |].
  split; [exact Hmi | exact Herr].
Defined.

(** X21.  [initializeMap] never throws and always ends not loading.
    Outside the browser, or on a component that already has a map, it does
    nothing else: the map, the layer, the reports and the error are as they
    were and no select is sent. *)
Theorem initialisation_is_guarded :
  forall (tls : jsstring -> jsstring) (browser : bool)
         (import_leaflet : completion bool) (s : State),
    let r := initializeMap browser import_leaflet tls s in
    result r = Normal tt
    /\ isLoading (state r) = false
    /\ (browser = false \/ mapInstance s <> None ->
        state r = set_isLoading false s /\ calls (trace r) = []).
Proof.
  intros tls browser import_leaflet s r. subst r.
  split; [|split].
  - now destruct (initializeMap_state_cases tls browser import_leaflet s) as (t & ->).
  - destruct (initializeMap_state_cases tls browser import_leaflet s) as (t & ->).
    cbn [state fst snd].
    destruct browser; [|reflexivity].
    destruct (mapInstance s), (mapContainer s); try reflexivity.
    destruct import_leaflet as [[|]|e]; reflexivity.
  - intros Hskip.
    destruct (initializeMap_skips tls browser import_leaflet s Hskip) as (t & -> & Ht).
    now split.
Qed.

Lemma initialisation_is_guarded_witness :
  let s := state (initializeMap true (Normal true) (fun d => d)
                    (set_mapContainer true (initial None))) in
  state (initializeMap true (Normal true) (fun d => d) s) = set_isLoading false s.
Proof.
  intros s.
  destruct (initialisation_is_guarded (fun d => d) true (Normal true) s)
    as (_ & _ & Hskip).
  apply Hskip. right. discriminate.
Defined.

(** X22.  Teardown works from any state and never throws: afterwards there
    is no map, no layer, no Leaflet, no container and no report, and tearing
    down again changes nothing.  Once the container is bound again, the
    component initialises as a fresh one does: it is ready and, with a
    client, shows the markers of the fetched reports. *)
Theorem teardown_clears_and_allows_remount :
  forall (tls : jsstring -> jsstring) (s : State),
    let s1 := state (onDestroy s) in
    let s2 := state (initializeMap true (Normal true) tls (set_mapContainer true s1)) in
    result (onDestroy s) = Normal tt
    /\ mapInstance s1 = None /\ markersLayer s1 = None /\ L s1 = false
    /\ mapContainer s1 = false /\ reports s1 = []
    /\ state (onDestroy s1) = s1
    /\ ready s2 = true
    /\ markersLayer s2 =
         Some (match supabase s with
               | Some client => markersOf tls (fetched client)
               | None => []
               end).
Proof.
  intros tls s s1 s2.
  assert (Hs1 : s1 = {| supabase := supabase s; mapContainer := false;
                        mapInstance := None; markersLayer := None;
                        isLoading := isLoading s; mapError := mapError s;
                        L := false; reports := [] |}).
  { subst s1. destruct s as [sb mc [map|] ml il me l rs]; reflexivity. }
  assert (Hres : result (onDestroy s) = Normal tt).
  { destruct s as [sb mc [map|] ml il me l rs]; reflexivity. }
  subst s2. rewrite Hs1. clear Hs1 s1.
  destruct (initializeMap_builds tls
              (set_mapContainer true
                 {| supabase := supabase s; mapContainer := false;
                    mapInstance := None; markersLayer := None;
                    isLoading := isLoading s; mapError := mapError s;
                    L := false; reports := [] |}))
    as (t & -> & _); [reflexivity | reflexivity |].
  cbn [state fst snd].
  destruct (supabase s) as [client|]; repeat split; assumption.
Qed.

(** X23.  A refresh on a component that has its map but no client sends
    nothing and keeps what is drawn: the reports and the marker layer are
    as before, the error "Backend connection error." is shown and the
    component is not loading. *)
Theorem refresh_without_client_keeps_markers :
  forall (tls : jsstring -> jsstring) (s : State) (map : Leaflet.Map),
    mapInstance s = Some map ->
    supabase s = None ->
    let r := refreshData tls s in
    result r = Normal tt
    /\ calls (trace r) = []
    /\ reports (state r) = reports s
    /\ markersLayer (state r) = markersLayer s
    /\ mapInstance (state r) = mapInstance s
    /\ mapError (state r) = Some (lit "Backend connection error.")
    /\ isLoading (state r) = false.
Proof.
  intros tls s map Hmi Hsb r. subst r.
  destruct (MapDisplayMarkers.refreshData_run tls s) as (t & -> & Ht).
  rewrite Hmi, Hsb in Ht. cbn [result state trace fst snd].
  destruct s as [sb mc mi ml il me l rs]. cbn in Hmi, Hsb. subst mi sb.
  repeat split. exact Ht.
Qed.

Lemma refresh_without_client_keeps_markers_witness :
  let s := state (initializeMap true (Normal true) (fun d => d)
                    (set_mapContainer true (initial None))) in
  calls (trace (refreshData (fun d => d) s)) = []
  /\ mapError (state (refreshData (fun d => d) s)) = Some (lit "Backend connection error.").
Proof.
  intros s.
  destruct (refresh_without_client_keeps_markers (fun d => d) s freshMap)
    as (_ & Hcalls & _ & _ & _ & Herr & _); [reflexivity | reflexivity |].
  split; [exact Hcalls | exact Herr].
Defined.

End MapLife.

(* ------------------------------------------------------------------ *)
(** * MapDisplay: the popup text *)
(* ------------------------------------------------------------------ *)

Module PopupText.
Import Supabase MapDisplay JsText.

Lemma startsWith_prefix (p b : jsstring) : startsWith p (p ++ b) = true.
Proof.
  induction p as [|c p IH]; [reflexivity|].
  simpl. now rewrite N.eqb_refl.
Qed.

Lemma includes_prefix (p b : jsstring) : includes p (p ++ b) = true.
Proof.
  destruct (p ++ b) eqn:Hs; simpl; rewrite <- Hs, startsWith_prefix; reflexivity.
Qed.

Lemma includes_skip (a p s : jsstring) :
  includes p s = true -> includes p (a ++ s) = true.
Proof.
  intros H. induction a as [|c a IH]; [exact H|].
  simpl. rewrite IH. apply orb_true_r.
Qed.

Lemma startsWith_app (p a b : jsstring) :
  startsWith p a = true -> startsWith p (a ++ b) = true.
Proof.
  revert a. induction p as [|c p IH]; intros a H; [reflexivity|].
  destruct a as [|x a]; [discriminate|]. simpl in *.
  apply andb_true_iff in H as [Hc Hp]. now rewrite Hc, IH.
Qed.

Lemma includes_app_l (p a b : jsstring) :
  includes p a = true -> includes p (a ++ b) = true.
Proof.
  induction a as [|x a IH]; intros H.
  - destruct p; [destruct b; reflexivity | discriminate].
  - simpl in *. apply orb_true_iff in H as [H | H].
    + change (x :: a ++ b) with ((x :: a) ++ b).
      now rewrite (startsWith_app p (x :: a) b H).
    + rewrite (IH H). apply orb_true_r.
Qed.




(** X25.  When a report has a non-empty image URL, its popup holds a link
    to that URL around an image loaded from it. *)
Theorem popup_links_the_image :
  forall (tls : jsstring -> jsstring) (report : PollutionReport) (url : jsstring),
    image_url report = Some url ->
    truthy url = true ->
    includes (html "<a href='" ++ url) (popupContent tls report) = true
    /\ includes (html "<img src='" ++ url) (popupContent tls report) = true.
Proof.
  intros tls report url Hurl Htruthy. unfold popupContent.
  rewrite Hurl, Htruthy.
  split.
  - do 11 (apply includes_skip). apply includes_app_l.
    rewrite app_assoc. apply includes_prefix.
  - do 11 (apply includes_skip). apply includes_app_l.
    do 2 (apply includes_skip).
    replace (html "' target='_blank' rel='noopener noreferrer' class='block mt-2'><img src='")
      with (html "' target='_blank' rel='noopener noreferrer' class='block mt-2'>"
            ++ html "<img src='") by reflexivity.
    rewrite <- app_assoc. apply includes_skip.
    rewrite app_assoc. apply includes_prefix.
Qed.

Lemma popup_links_the_image_witness :
  let report := {| id := lit "a1"; created_at := lit "2025-05-01T10:00:00Z";
                   latitude := Some 27.7%float; longitude := Some 85.3%float;
                   pollution_type := Some (lit "Plastic_Burning");
                   description := Some (lit "x");
                   image_url := Some (lit "https://cdn/p.jpg") |} in
  includes (html "<img src='" ++ lit "https://cdn/p.jpg")
           (popupContent (fun d => d) report) = true.
Proof.
  intros report.
  destruct (popup_links_the_image (fun d => d) report (lit "https://cdn/p.jpg"))
    as (_ & Himg); [reflexivity | reflexivity |].
  exact Himg.
Defined.

End PopupText.
